(** * YT-transcript: the caption-to-text pipeline of [app.py] and [script.py]

    A shallow embedding of the pure text functions of the repository
    ([extract_video_id], [parse_vtt_with_timestamps],
    [format_transcript_into_paragraphs]) and of the orchestrator
    [get_transcript_data], with the properties of the specification proved
    or refuted on them.

    Python's [str] is a sequence of Unicode code points; it is modelled as
    [list N].  The library calls the code makes on strings ([str.strip],
    [str.splitlines], [str.startswith], [in], [str.join], [str.split],
    [re.sub] on the two patterns of the source) are written out below after
    their documented behaviour.  The collaborators of the program
    ([urllib.parse], NLTK's sentence tokenizer, yt-dlp, [str.lower]) are
    Section variables. *)

From stdpp Require Import gmap list strings.

Local Open Scope N_scope.

(** ** Python strings *)

Abbreviation str := (list N).

(** A string literal of the source, as code points. *)
Fixpoint py (s : string) : str :=
  match s with
  | EmptyString => []
  | String a t => Ascii.N_of_ascii a :: py t
  end.

(** The line feed, ["\n"]. *)
Definition nl : str := [10].

(** Truth value of a string: [if s:] holds for the non-empty ones. *)
Definition truthy (s : str) : bool :=
  match s with [] => false | _ :: _ => true end.

(** [str.isspace] on one code point: the characters [str.strip()] removes. *)
Definition isspace (c : N) : bool :=
  ((9 <=? c) && (c <=? 13)) || ((28 <=? c) && (c <=? 32))
  || (c =? 133) || (c =? 160) || (c =? 5760)
  || ((8192 <=? c) && (c <=? 8202))
  || (c =? 8232) || (c =? 8233) || (c =? 8239) || (c =? 8287) || (c =? 12288).

(** The line boundaries of [str.splitlines()]. *)
Definition islinebreak (c : N) : bool :=
  ((10 <=? c) && (c <=? 13)) || ((28 <=? c) && (c <=? 30))
  || (c =? 133) || (c =? 8232) || (c =? 8233).

Fixpoint lstrip (s : str) : str :=
  match s with
  | [] => []
  | x :: t => if isspace x then lstrip t else s
  end.

Definition rstrip (s : str) : str := rev (lstrip (rev s)).

(** [s.strip()] *)
Definition strip (s : str) : str := rstrip (lstrip s).

(** [s.startswith(p)] *)
Fixpoint startswith (s p : str) : bool :=
  match p, s with
  | [], _ => true
  | a :: p', b :: s' => (a =? b) && startswith s' p'
  | _ :: _, [] => false
  end.

(** [sub in s] *)
Fixpoint contains (s sub : str) : bool :=
  startswith s sub
  || match s with [] => false | _ :: t => contains t sub end.

(** [sep.join(l)] *)
Fixpoint join (sep : str) (l : list str) : str :=
  match l with
  | [] => []
  | x :: t => match t with [] => x | _ :: _ => x ++ sep ++ join sep t end
  end.

(** [s.splitlines()]: [cur] holds the current line, reversed.  A carriage
    return followed by a line feed is one boundary; a final boundary opens
    no empty last line. *)
Fixpoint splitlines_go (cur : str) (s : str) : list str :=
  match s with
  | [] => match cur with [] => [] | _ :: _ => [rev cur] end
  | x :: t =>
      if x =? 13 then
        match t with
        | y :: t' => if y =? 10 then rev cur :: splitlines_go [] t'
                     else rev cur :: splitlines_go [] t
        | [] => rev cur :: splitlines_go [] t
        end
      else if islinebreak x then rev cur :: splitlines_go [] t
      else splitlines_go (x :: cur) t
  end.

Definition splitlines (s : str) : list str := splitlines_go [] s.

(** [s.split(sep)] for a one-character separator: never an empty list. *)
Fixpoint split_go (sep : N) (cur : str) (s : str) : list str :=
  match s with
  | [] => [rev cur]
  | x :: t => if x =? sep then rev cur :: split_go sep [] t
              else split_go sep (x :: cur) t
  end.

Definition split (sep : N) (s : str) : list str := split_go sep [] s.

(** ** The two regular expressions of the source

    [re.sub(r'<[^>]+>', '', s)] and [re.sub(r'\{[^}]+\}', '', s)] have the
    same shape: an opening character [o], one or more characters other than
    the closing character [c], then [c]. *)

(** [[^c]* c] at the head of [s]: what follows the match. *)
Fixpoint skip_to (c : N) (s : str) : option str :=
  match s with
  | [] => None
  | x :: t => if x =? c then Some t else skip_to c t
  end.

(** [[^c]+ c] can be matched at the head of [s]. *)
Definition opens (c : N) (s : str) : bool :=
  match s with
  | [] => false
  | y :: t => negb (y =? c) && bool_decide (is_Some (skip_to c t))
  end.

(** The pattern [o [^c]+ c] anchored at the head of [s]: what follows the
    match.  The match is unique: it ends at the first [c]. *)
Definition match_delim (o c : N) (s : str) : option str :=
  match s with
  | [] => None
  | x :: t => if (x =? o) && opens c t then skip_to c t else None
  end.

(** [re.sub] with the empty replacement: scan from the left; where the
    pattern matches, drop the match and go on after it ([inside = true]
    while the characters of a match are being dropped); elsewhere keep the
    character. *)
Fixpoint re_sub_go (o c : N) (inside : bool) (s : str) : str :=
  match s with
  | [] => []
  | x :: t =>
      if inside then
        if x =? c then re_sub_go o c false t else re_sub_go o c true t
      else if (x =? o) && opens c t then re_sub_go o c true t
      else x :: re_sub_go o c false t
  end.

Definition re_sub_delim (o c : N) (s : str) : str := re_sub_go o c false s.

(** [re.sub(r'<[^>]+>', '', s)] *)
Definition strip_tags (s : str) : str := re_sub_delim 60 62 s.
(** [re.sub(r'\{[^}]+\}', '', s)] *)
Definition strip_braces (s : str) : str := re_sub_delim 123 125 s.

(** The two substitutions in the order of the source (app.py:87-88 and
    app.py:104-105). *)
Definition clean_line (line : str) : str := strip_braces (strip_tags line).

(** ** [parse_vtt_with_timestamps] (app.py:70-92) *)

Definition is_header (line : str) : bool :=
  startswith line (py "WEBVTT") || startswith line (py "Kind:")
  || startswith line (py "Language:").

Definition arrow : str := py "-->".

(** The loop of app.py:75-91 over the remaining lines; [cur] is
    [current_timestamp], the result is what the loop appends to
    [formatted_transcript].  [lines[i+1]] is the head of [rest], and
    [i + 1 < len(lines)] says that [rest] is not empty. *)
Fixpoint parse_loop (lines : list str) (cur : str) : list str :=
  match lines with
  | [] => []
  | raw :: rest =>
      let line := strip raw in
      if is_header line then parse_loop rest cur
      else if contains line arrow then
        let stamp := py "[" ++ line ++ py "]" in
        match rest with
        | [] => parse_loop rest stamp
        | nxt :: _ =>
            let next_line := strip nxt in
            if truthy next_line && negb (contains next_line arrow)
            then stamp :: parse_loop rest stamp
            else parse_loop rest []
        end
      else if truthy line && truthy cur then
        clean_line line :: [] :: parse_loop rest []
      else parse_loop rest cur
  end.

Definition parse_vtt_with_timestamps (vtt_content : str) : str :=
  strip (join nl (parse_loop (splitlines (strip vtt_content)) [])).

(** ** [format_transcript_into_paragraphs] (app.py:94-145) *)

Definition isalpha_ascii (c : N) : bool :=
  ((65 <=? c) && (c <=? 90)) || ((97 <=? c) && (c <=? 122)).

(** What is left of [s] after its leading ASCII letters. *)
Fixpoint after_letters (s : str) : str :=
  match s with
  | [] => []
  | x :: t => if isalpha_ascii x then after_letters t else s
  end.

(** [re.match(r'^[a-zA-Z]+:.+', s)] succeeds: one or more letters, a colon,
    and at least one character that is not a line feed. *)
Definition is_label (s : str) : bool :=
  match s with
  | [] => false
  | x :: t =>
      isalpha_ascii x &&
      match after_letters t with
      | c :: y :: _ => (c =? 58) && negb (y =? 10)
      | _ => false
      end
  end.

(** The loop of app.py:101-107: the text segments of the lines. *)
Fixpoint text_segments (lines : list str) : list str :=
  match lines with
  | [] => []
  | raw :: rest =>
      let line := strip raw in
      if is_header line || contains line arrow || negb (truthy line)
      then text_segments rest
      else
        let cleaned_line := clean_line line in
        if truthy cleaned_line && negb (is_label cleaned_line)
        then strip cleaned_line :: text_segments rest
        else text_segments rest
  end.

(** The grouping loops of app.py:128-132 and app.py:138-142, as one loop
    over the remaining items: [current] is the paragraph under
    construction, a group is closed when it has [size] items or at the last
    item ([i == len(items) - 1]: nothing remains). *)
Fixpoint group_loop (size : nat) (items : list str) (current : list str)
  : list (list str) :=
  match items with
  | [] => []
  | x :: rest =>
      let current' := current ++ [x] in
      if (size <=? length current')%nat || bool_decide (rest = [])
      then current' :: group_loop size rest []
      else group_loop size rest current'
  end.

(** The paragraphs: every closed group joined with single spaces. *)
Definition paragraphs_of (size : nat) (items : list str) : list str :=
  join (py " ") <$> group_loop size items [].

(** What a call to a collaborator does: it returns, or raises an exception
    whose text is [msg]. *)
Inductive outcome (A : Type) : Type :=
| Returns (a : A)
| Raises (msg : str).
Arguments Returns {A} a.
Arguments Raises {A} msg.

(** [MIN_SENTENCE_THRESHOLD] of app.py:123. *)
Definition MIN_SENTENCE_THRESHOLD (text_segments : list str) : nat :=
  Nat.max 5 (length text_segments / 10).

Definition could_not_extract : str :=
  py "Could not extract text content for formatting.".

Section Formatter.

(** [nltk.sent_tokenize] *)
Variable sent_tokenize : str -> outcome (list str).

Definition format_transcript_into_paragraphs (vtt_content : str)
    (sentences_per_paragraph lines_per_fallback_paragraph : nat) : str :=
  let segments := text_segments (splitlines (strip vtt_content)) in
  match segments with
  | [] => could_not_extract
  | _ :: _ =>
      let full_text := join (py " ") segments in
      match sent_tokenize full_text with
      | Raises e =>
          if contains e (py "Resource punkt") || contains e (py "punkt_tab")
          then py "Error: NLTK resource 'punkt'/'punkt_tab' not found. Try manual download."
          else py "Error during sentence tokenization: " ++ e
      | Returns sentences =>
          let formatted_output :=
            if (MIN_SENTENCE_THRESHOLD segments <? length sentences)%nat
            then paragraphs_of sentences_per_paragraph sentences
            else paragraphs_of lines_per_fallback_paragraph segments in
          strip (join (nl ++ nl) formatted_output)
      end
  end.

End Formatter.

(** ** [extract_video_id] (app.py:55-68, script.py:6-41) *)

(** The attributes of [urlparse(url)] the code reads; [hostname] is [None]
    for a URL without a network location. *)
Record ParseResult : Type := {
  hostname : option str;
  path : str;
  query : str
}.

(** [parsed_url.hostname in hosts] *)
Definition hostname_in (p : ParseResult) (hosts : list str) : bool :=
  match hostname p with
  | Some h => bool_decide (h ∈ hosts)
  | None => false
  end.

Definition slash : N := 47.

Section Extractor.

(** [urllib.parse.urlparse]; it raises [ValueError] on some inputs. *)
Variable urlparse : str -> outcome ParseResult.
(** [urllib.parse.parse_qs]: the values of every query parameter. *)
Variable parse_qs : str -> gmap str (list str).

(** [parse_qs(query).get('v', [None])[0]]; an [IndexError] on an empty
    list would be caught by the handler of the caller. *)
Definition first_v (query : str) : option str :=
  match parse_qs query !! py "v" with
  | Some (v :: _) => Some v
  | Some [] => None
  | None => None
  end.

(** [path.split('/')[2]]; the [IndexError] of a short list is caught by
    the handler of the caller, which returns [None]. *)
Definition third_piece (path : str) : option str := split slash path !! 2%nat.

(** app.py:55-68. *)
Definition extract_video_id (url : str) : option str :=
  match urlparse url with
  | Raises _ => None
  | Returns parsed_url =>
      if hostname_in parsed_url
           [py "www.youtube.com"; py "youtube.com"; py "m.youtube.com"]
      then
        if bool_decide (path parsed_url = py "/watch")
        then first_v (query parsed_url)
        else if startswith (path parsed_url) (py "/embed/")
                || startswith (path parsed_url) (py "/v/")
        then third_piece (path parsed_url)
        else None
      else if bool_decide (hostname parsed_url = Some (py "youtu.be"))
      then Some (drop 1 (path parsed_url))
      else None
  end.

End Extractor.

(** script.py:6-41: the same function in the standalone script, with the
    short-link host tested first and without the mobile host. *)
Module Script.

Definition extract_video_id (urlparse : str -> outcome ParseResult)
    (parse_qs : str -> gmap str (list str)) (url : str) : option str :=
  match urlparse url with
  | Raises _ => None
  | Returns parsed_url =>
      if bool_decide (hostname parsed_url = Some (py "youtu.be"))
      then Some (drop 1 (path parsed_url))
      else if hostname_in parsed_url [py "www.youtube.com"; py "youtube.com"]
      then
        if bool_decide (path parsed_url = py "/watch")
        then first_v parse_qs (query parsed_url)
        else if startswith (path parsed_url) (py "/embed/")
        then third_piece (path parsed_url)
        else if startswith (path parsed_url) (py "/v/")
        then third_piece (path parsed_url)
        else None
      else None
  end.

End Script.

(** ** [get_transcript_data] (app.py:147-188) *)

(** The dictionary the orchestrator returns; a key that is absent or holds
    [None] is [None] here. *)
Record TranscriptResult : Type := {
  timestamped : option str;
  paragraph : option str;
  error : option str
}.

(** [if v:] on a value of the dictionary. *)
Definition populated (v : option str) : bool :=
  match v with
  | Some s => truthy s
  | None => false
  end.

(** A file of the working directory: what reading it gives, and whether
    [os.remove] succeeds on it (else it raises [OSError]). *)
Record file : Type := {
  read : outcome str;
  removable : bool
}.

(** The working directory: the paths that exist. *)
Abbreviation filesystem := (gmap str file).

(** What [ydl.extract_info] does besides writing files: the truth values of
    the two entries of [info_dict] the code reads, or one of the two kinds
    of exception the code distinguishes. *)
Inductive extraction : Type :=
| Info (automatic_captions subtitles : bool)
| DownloadError (msg : str)
| OtherException (msg : str).

Definition os_path_exists (w : filesystem) (p : str) : bool :=
  bool_decide (is_Some (w !! p)).

(** The [finally] block of app.py:184-187; a failing [os.remove] only
    prints a warning. *)
Definition cleanup (subtitle_file_path : option str) (w : filesystem)
  : filesystem :=
  match subtitle_file_path with
  | None => w
  | Some p =>
      if truthy p && os_path_exists w p then
        match w !! p with
        | Some f => if removable f then delete p w else w
        | None => w
        end
      else w
  end.

(** The loop of app.py:165-166: the first of the paths that exists, with
    the file found there. *)
Fixpoint locate (w : filesystem) (paths : list str) : option (str * file) :=
  match paths with
  | [] => None
  | p :: rest =>
      match w !! p with
      | Some f => Some (p, f)
      | None => locate w rest
      end
  end.

(** [base_filename] of app.py:154 and [possible_paths] of app.py:164. *)
Definition base_filename_of (video_id language : str) : str :=
  video_id ++ py "_transcript_" ++ language.

Definition possible_paths_of (base_filename language : str) : list str :=
  [base_filename ++ py "." ++ language ++ py ".vtt"; base_filename ++ py ".vtt"].

Definition empty_content_error : str :=
  py "Error: Parsing subtitle file resulted in empty content.".

Section Orchestrator.

Variable urlparse : str -> outcome ParseResult.
Variable parse_qs : str -> gmap str (list str).
Variable sent_tokenize : str -> outcome (list str).
(** [str.lower] *)
Variable lower : str -> str.
(** [yt_dlp.YoutubeDL(ydl_opts).extract_info(url, download=True)] for the
    given URL, output template and language, run in a working directory:
    the directory it leaves and how it ends. *)
Variable extract_info : str -> str -> str -> filesystem -> filesystem * extraction.

(** The handler of app.py:176-180. *)
Definition download_error_message (e language : str) : str :=
  if contains (lower e) (py "no automatic captions found")
     || contains (lower e) (py "no subtitles found")
  then py "Error: No subtitles/captions found (lang: '" ++ language ++ py "')."
  else if contains e (py "Video unavailable")
  then py "Error: Video unavailable."
  else if contains (lower e) (py "unable to download video data")
  then py "Error: Could not download video metadata."
  else py "Error during download/extraction (yt-dlp).".

(** app.py:171-175, once [vtt_content] is read. *)
Definition process (vtt_content : str) : TranscriptResult :=
  let ts := parse_vtt_with_timestamps vtt_content in
  let pg := format_transcript_into_paragraphs sent_tokenize vtt_content 5 8 in
  {| timestamped := Some ts;
     paragraph := Some pg;
     error := if negb (truthy ts) && negb (truthy pg)
              then Some empty_content_error else None |}.

Definition failed (msg : str) : TranscriptResult :=
  {| timestamped := Some []; paragraph := Some []; error := Some msg |}.

(** The result, and the working directory the invocation leaves. *)
Definition get_transcript_data (url language : str) (w : filesystem)
  : TranscriptResult * filesystem :=
  match extract_video_id urlparse parse_qs url with
  | Some ((_ :: _) as video_id) =>
      let base_filename := base_filename_of video_id language in
      let '(w1, r) := extract_info url base_filename language w in
      match r with
      | Info automatic_captions subtitles =>
          let possible_paths := possible_paths_of base_filename language in
          match locate w1 possible_paths with
          | None =>
              (failed
                 (if negb automatic_captions && negb subtitles
                  then py "Error: No subtitles/captions available (lang: '"
                       ++ language ++ py "')."
                  else py "Error: Subtitle file not created by yt-dlp."),
               cleanup None w1)
          | Some (subtitle_file_path, f) =>
              (match read f with
               | Returns vtt_content => process vtt_content
               | Raises e =>
                   failed (py "An unexpected error occurred during processing: " ++ e)
               end,
               cleanup (Some subtitle_file_path) w1)
          end
      | DownloadError e =>
          (failed (download_error_message e language), cleanup None w1)
      | OtherException e =>
          (failed (py "An unexpected error occurred during processing: " ++ e),
           cleanup None w1)
      end
  | _ =>
      ({| timestamped := None; paragraph := None;
          error := Some (py "Error: Could not extract a valid YouTube video ID from the URL.") |},
       w)
  end.

End Orchestrator.


(** Every group but the last has exactly [size] items, the last has from 1
    to [size]. *)
Fixpoint full_but_last {A : Type} (size : nat) (groups : list (list A)) : Prop :=
  match groups with
  | [] => True
  | g :: rest =>
      match rest with
      | [] => (1 <= length g <= size)%nat
      | _ :: _ => length g = size /\ full_but_last size rest
      end
  end.

(** [groups] cuts [items] into consecutive groups of [size], the last one
    possibly shorter: nothing lost, repeated or moved, and as many groups
    as [items] needs, the ceiling of [length items / size]. *)
Definition grouped {A : Type} (size : nat) (items : list A)
    (groups : list (list A)) : Prop :=
  concat groups = items
  /\ full_but_last size groups
  /\ length groups = ((length items + (size - 1)) / size)%nat.

(** [text] is the items of the list in their order, with [sep] between
    each two neighbours and nowhere else. *)
Inductive joined_by (sep : str) : list str -> str -> Prop :=
| joined_none : joined_by sep [] []
| joined_last x : joined_by sep [x] x
| joined_more x y rest text :
    joined_by sep (y :: rest) text ->
    joined_by sep (x :: y :: rest) (x ++ sep ++ text).

(** ** The rules of the Identifier Extractor, after the specification

    These definitions follow the words of the specification (section 4.1),
    to be compared with the two functions of the source. *)

(** The characters of [s] before its first ['/']. *)
Fixpoint up_to_slash (s : str) : str :=
  match s with
  | [] => []
  | x :: t => if x =? slash then [] else x :: up_to_slash t
  end.

(** The path segment immediately following a prefix of the path. *)
Definition segment_following (prefix path : str) : str :=
  up_to_slash (drop (length prefix) path).

(** The host of the parsed URL is one of [hosts]. *)
Definition host_among (hosts : list str) (u : ParseResult) : bool :=
  match hostname u with
  | Some h => existsb (fun known => bool_decide (known = h)) hosts
  | None => false
  end.

(** The main domains and the mobile domain of the platform. *)
Definition main_hosts : list str := [py "www.youtube.com"; py "youtube.com"].
Definition mobile_hosts : list str := [py "m.youtube.com"].

(** The rules in their priority order: the short-link host; the watch
    path on one of [watch_hosts]; one of the two prefixes on one of
    [prefix_hosts]; not found otherwise, and for a URL that cannot be
    parsed.  The specification has the main and mobile domains for the
    watch rule and the main domains for the prefix rule:
    [identifier_by_rules (main_hosts ++ mobile_hosts) main_hosts]. *)
Definition identifier_by_rules (watch_hosts prefix_hosts : list str)
    (parse_qs : str -> gmap str (list str))
    (parsed : outcome ParseResult) : option str :=
  match parsed with
  | Raises _ => None
  | Returns u =>
      if bool_decide (hostname u = Some (py "youtu.be"))
      then Some (drop 1 (path u))
      else if host_among watch_hosts u && bool_decide (path u = py "/watch")
      then match parse_qs (query u) !! py "v" with
           | Some values => head values
           | None => None
           end
      else if host_among prefix_hosts u && startswith (path u) (py "/embed/")
      then Some (segment_following (py "/embed/") (path u))
      else if host_among prefix_hosts u && startswith (path u) (py "/v/")
      then Some (segment_following (py "/v/") (path u))
      else None
  end.

(** ** Notions used in the statements *)

(** No occurrence of the pattern [o [^c]+ c] anywhere in [s]. *)
Fixpoint settled (o c : N) (s : str) : bool :=
  match s with
  | [] => true
  | x :: t => negb ((x =? o) && opens c t) && settled o c t
  end.

(** A line the loop takes for a time range: not a header line, and with
    the arrow. *)
Definition time_range_line (raw : str) : bool :=
  negb (is_header (strip raw)) && contains (strip raw) arrow.


(** White space only. *)
Definition blank (s : str) : Prop := Forall (fun x => isspace x = true) s.

(** Neither the first nor the last character is white space. *)
Definition trimmed (m : str) : Prop := lstrip m = m /\ lstrip (rev m) = rev m.

(** The shape every result has: the error or one of the strings is
    populated, and the error comes with no populated string. *)
Definition well_shaped (r : TranscriptResult) : Prop :=
  populated (error r) || populated (timestamped r) || populated (paragraph r) = true
  /\ (populated (error r) = true ->
      populated (timestamped r) = false /\ populated (paragraph r) = false).

(** ** Sample inputs *)

(** The sample cue of the specification: a time-range line, a text line
    with a tag, a blank line. *)
Definition cue1 : str :=
  py "00:00:01.000 --> 00:00:03.000" ++ nl ++ py "<c>Hello</c> world" ++ nl ++ nl.


(** A cue whose only text line is the tag [<c>], followed by a second
    cue. *)
Definition tag_only_cue : str :=
  py "00:00:01.000 --> 00:00:02.000" ++ nl ++ py "<c>" ++ nl ++ nl
  ++ py "00:00:02.000 --> 00:00:03.000" ++ nl ++ py "Hi" ++ nl.


(** A tokenizer that finds one sentence, the whole text: what a
    tokenizer does on text without punctuation. *)
Definition one_sentence (text : str) : outcome (list str) := Returns [text].

(** A sample run.

    The collaborators on the URL [https://youtu.be/abc]: what [urlparse]
    and [parse_qs] answer on it, [str.lower] on ASCII text, and a
    retrieval that stages one subtitle file under the first candidate name
    and returns. *)

Definition sample_url : str := py "https://youtu.be/abc".

Definition sample_urlparse (url : str) : outcome ParseResult :=
  if bool_decide (url = sample_url)
  then Returns {| hostname := Some (py "youtu.be"); path := py "/abc"; query := [] |}
  else Returns {| hostname := None; path := url; query := [] |}.

Definition sample_parse_qs (query : str) : gmap str (list str) := ∅.

Definition ascii_lower (s : str) : str :=
  (fun c => if (65 <=? c) && (c <=? 90) then c + 32 else c) <$> s.

Definition stages (f : file) (url outtmpl language : str) (w : filesystem)
  : filesystem * extraction :=
  (<[outtmpl ++ py "." ++ language ++ py ".vtt" := f]> w, Info true false).

Definition sample_run (f : file) : TranscriptResult * filesystem :=
  get_transcript_data sample_urlparse sample_parse_qs one_sentence ascii_lower
    (stages f) sample_url (py "en") ∅.

Definition sample_path : str := py "abc_transcript_en.en.vtt".

(** A subtitle file whose only text line holds tags and a space: both
    renderings of it are empty. *)
Definition tags_only_file : file :=
  {| read := Returns (py "<c> <c>"); removable := true |}.

(** A subtitle file with the header line only. *)
Definition header_only_file : file :=
  {| read := Returns (py "WEBVTT" ++ nl); removable := true |}.

(** A subtitle file on which [os.remove] raises [OSError]. *)
Definition locked_file : file :=
  {| read := Returns cue1; removable := false |}.

(** A retrieval that stages the file and then raises [DownloadError]: the
    path of the file is not known to the [finally] block, and the file
    stays. *)
Definition stages_then_fails (f : file) (url outtmpl language : str)
    (w : filesystem) : filesystem * extraction :=
  (<[outtmpl ++ py "." ++ language ++ py ".vtt" := f]> w,
   DownloadError (py "ERROR: Video unavailable")).

(** ** [generate_word_cloud] (app.py:190-210) *)

(** What [WordCloud(...).generate(text)] does: it returns a cloud, raises
    [ValueError] (no word left after the stop words), or raises another
    exception. *)
Inductive cloud_outcome (Cloud : Type) : Type :=
| CloudMade (c : Cloud)
| CloudValueError
| CloudException (msg : str).
Arguments CloudMade {Cloud} c.
Arguments CloudValueError {Cloud}.
Arguments CloudException {Cloud} msg.

Definition generate_word_cloud {Cloud : Type}
    (wordcloud_generate : str -> cloud_outcome Cloud) (text : str)
  : option Cloud :=
  if negb (truthy text) || startswith text (py "Error:")
     || startswith text (py "Could not extract")
  then None
  else match wordcloud_generate text with
       | CloudMade c => Some c
       | CloudValueError => None
       | CloudException _ => None
       end.

(** ** The page (app.py:219-286) *)

Module Page.

(** The four entries of [st.session_state]. *)
Record session (Cloud : Type) : Type := {
  transcript_data : TranscriptResult;
  last_url : str;
  video_id : option str;
  word_cloud : option Cloud
}.
Arguments transcript_data {Cloud} s.
Arguments last_url {Cloud} s.
Arguments video_id {Cloud} s.
Arguments word_cloud {Cloud} s.

(** [{'timestamped': "", 'paragraph': "", 'error': None}] *)
Definition no_result : TranscriptResult :=
  {| timestamped := Some []; paragraph := Some []; error := None |}.

(** app.py:220-227. *)
Definition initial {Cloud : Type} : session Cloud :=
  {| transcript_data := no_result; last_url := [];
     video_id := Some []; word_cloud := None |}.

(** [td.get('timestamped') or td.get('paragraph') or td.get('error')] *)
Definition has_anything (td : TranscriptResult) : bool :=
  populated (timestamped td) || populated (paragraph td) || populated (error td).

Section Handler.

Variable Cloud : Type.
Variable urlparse : str -> outcome ParseResult.
Variable parse_qs : str -> gmap str (list str).
Variable sent_tokenize : str -> outcome (list str).
Variable lower : str -> str.
Variable extract_info : str -> str -> str -> filesystem -> filesystem * extraction.
Variable wordcloud_generate : str -> cloud_outcome Cloud.

(** The handler of the button (app.py:236-258), with [lang = 'en']: the
    session and the working directory it leaves. *)
Definition on_get_transcript (url : str) (s : session Cloud) (w : filesystem)
  : session Cloud * filesystem :=
  if truthy url then
    if negb (bool_decide (url = last_url s))
       || negb (has_anything (transcript_data s))
    then
      let '(r, w') :=
        get_transcript_data urlparse parse_qs sent_tokenize lower extract_info
          url (py "en") w in
      ({| transcript_data := r;
          last_url := url;
          video_id := extract_video_id urlparse parse_qs url;
          word_cloud :=
            if negb (populated (error r)) && populated (paragraph r)
            then match paragraph r with
                 | Some text => generate_word_cloud wordcloud_generate text
                 | None => None
                 end
            else None |}, w')
    else (s, w)
  else
    ({| transcript_data := no_result; last_url := [];
        video_id := Some []; word_cloud := None |}, w).

End Handler.

(** What the transcript section shows (app.py:283-304): the error, the two
    text areas, or nothing. *)
Inductive view : Type :=
| ShowError (msg : str)
| ShowTranscripts (timestamped_transcript paragraph_transcript : str)
| ShowNothing.

(** [td.get(key, "Not available.")] *)
Definition or_not_available (v : option str) : str :=
  match v with
  | Some text => text
  | None => py "Not available."
  end.

Definition transcript_view (td : TranscriptResult) : view :=
  if populated (error td)
  then ShowError (match error td with Some msg => msg | None => [] end)
  else if populated (timestamped td) || populated (paragraph td)
  then ShowTranscripts (or_not_available (timestamped td))
         (or_not_available (paragraph td))
  else ShowNothing.

End Page.

(** ** [get_youtube_transcript] and the main block (script.py:43-110) *)

(** What [YouTubeTranscriptApi.get_transcript(video_id)] does: it returns
    the entries (their ['text']), or raises one of the exceptions the code
    distinguishes. *)
Inductive api_outcome : Type :=
| Entries (texts : list str)
| TranscriptsDisabled
| NoTranscriptFound
| ApiException (msg : str).

(** The loop of script.py:61-63. *)
Fixpoint append_entries (formatted_transcript : str) (texts : list str) : str :=
  match texts with
  | [] => formatted_transcript
  | text :: rest => append_entries (formatted_transcript ++ text ++ py " ") rest
  end.

Definition get_youtube_transcript (get_transcript : str -> api_outcome)
    (video_id : option str) : str :=
  match video_id with
  | Some ((_ :: _) as id) =>
      match get_transcript id with
      | Entries texts => strip (append_entries [] texts)
      | TranscriptsDisabled =>
          py "Error: Transcripts are disabled for video ID: " ++ id
      | NoTranscriptFound =>
          py "Error: No transcript found for video ID: " ++ id
          ++ py ". It might be unavailable or still processing."
      | ApiException e =>
          py "An unexpected error occurred for video ID " ++ id ++ py ": " ++ e
      end
  | _ => py "Error: Invalid or missing video ID."
  end.

(** What the main block prints after it has extracted the identifier
    (script.py:86-110), one string for each [print]. *)
Definition report (urlparse : str -> outcome ParseResult)
    (parse_qs : str -> gmap str (list str))
    (get_transcript : str -> api_outcome) (url : str) : list str :=
  match Script.extract_video_id urlparse parse_qs url with
  | Some ((_ :: _) as id) =>
      let transcript := get_youtube_transcript get_transcript (Some id) in
      [py "Successfully extracted video ID: " ++ id;
       py "Fetching transcript for video ID: " ++ id ++ py "..."]
      ++ (if startswith transcript (py "Error:")
          then [transcript]
          else [nl ++ py "--- Transcript ---"; transcript;
                nl ++ py "--- End of Transcript ---"])
  | _ =>
      [py "Error: Could not extract a valid YouTube video ID from the provided URL."]
  end.

(** ** Further notions used in the statements *)



(** A line the segment loop of the formatter skips before cleaning. *)
Definition skipped_line (raw : str) : bool :=
  is_header (strip raw) || contains (strip raw) arrow || negb (truthy (strip raw)).

(** What [urlparse] answers on a watch URL of the mobile host. *)
Definition mobile_urlparse (url : str) : outcome ParseResult :=
  Returns {| hostname := Some (py "m.youtube.com"); path := py "/watch";
             query := py "v=abc" |}.

(** A retrieval that stages a file under each of the two candidate names
    and returns. *)
Definition stages_both (f1 f2 : file) (url outtmpl language : str)
    (w : filesystem) : filesystem * extraction :=
  (<[outtmpl ++ py "." ++ language ++ py ".vtt" := f1]>
     (<[outtmpl ++ py ".vtt" := f2]> w),
   Info true false).

(** What [urlparse] answers on an embed URL of the mobile host. *)
Definition mobile_embed_urlparse (url : str) : outcome ParseResult :=
  Returns {| hostname := Some (py "m.youtube.com"); path := py "/embed/abc";
             query := [] |}.

(** What [parse_qs] answers on the query [v=abc]. *)
Definition v_parse_qs (query : str) : gmap str (list str) :=
  if bool_decide (query = py "v=abc") then {[ py "v" := [py "abc"] ]} else ∅.

(** What [urlparse] answers on an embed URL. *)
Definition embed_urlparse (url : str) : outcome ParseResult :=
  Returns {| hostname := Some (py "www.youtube.com"); path := py "/embed/abc/x";
             query := [] |}.

(** A cue with text, a time-range line followed at once by another
    time-range line, and a cue with text. *)
Definition settings_only_markup : str :=
  py "00:00:00.000 --> 00:00:01.000" ++ nl ++ py "Hello" ++ nl ++ nl
  ++ py "00:00:01.000 --> 00:00:02.000" ++ nl
  ++ py "00:00:02.000 --> 00:00:03.000" ++ nl ++ py "Hi".

(** Nine text lines without punctuation. *)
Definition nine_lines : str :=
  py "a" ++ nl ++ py "b" ++ nl ++ py "c" ++ nl ++ py "d" ++ nl ++ py "e" ++ nl
  ++ py "f" ++ nl ++ py "g" ++ nl ++ py "h" ++ nl ++ py "i".

(** Two text lines of punctuated prose, and a tokenizer that finds the six
    sentences of their text. *)
Definition prose_lines : str :=
  py "One. Two. Three." ++ nl ++ py "Four. Five. Six.".

Definition six_sentences : list str :=
  [py "One."; py "Two."; py "Three."; py "Four."; py "Five."; py "Six."].

Definition prose_tokenize (text : str) : outcome (list str) :=
  if bool_decide (text = py "One. Two. Three. Four. Five. Six.")
  then Returns six_sentences
  else Returns [text].

(** A subtitle file holding the sample cue. *)
Definition sample_cue_file : file :=
  {| read := Returns cue1; removable := true |}.

(** * Properties *)

(** ** The substitutions *)

Section Substitution.

Implicit Types (o c : N) (s t : str).

Lemma skip_to_None c s : skip_to c s = None <-> c ∉ s.
Proof.
  induction s as [|x t IH]; simpl.
  - split; [intros _; apply not_elem_of_nil | done].
  - destruct (N.eqb_spec x c) as [->|Hne].
    + split; [done | intros H; exfalso; apply H; left].
    + rewrite IH, not_elem_of_cons. intuition congruence.
Qed.

Lemma skip_to_Some c s r :
  skip_to c s = Some r -> exists body, s = body ++ c :: r /\ c ∉ body.
Proof.
  revert r. induction s as [|x t IH]; simpl; intros r H; [done|].
  destruct (N.eqb_spec x c) as [->|Hne].
  - exists []. injection H as ->. split; [done | apply not_elem_of_nil].
  - destruct (IH _ H) as (body & -> & Hb). exists (x :: body).
    split; [done|]. rewrite not_elem_of_cons. auto.
Qed.

Lemma opens_notin c s : c ∉ s -> opens c s = false.
Proof.
  destruct s as [|y t]; [done|]. intros H. simpl.
  apply not_elem_of_cons in H as [_ H]. apply skip_to_None in H.
  rewrite H. apply andb_false_intro2. by apply bool_decide_eq_false_2, is_Some_None.
Qed.

(** What a substitution keeps, it found in its argument. *)
Lemma elem_of_re_sub_go o c b s x : x ∈ re_sub_go o c b s -> x ∈ s.
Proof.
  revert b. induction s as [|y t IH]; intros b; simpl; [done|].
  destruct b.
  - destruct (y =? c); intros H; right; eauto.
  - destruct ((y =? o) && opens c t).
    + intros H; right; eauto.
    + rewrite !elem_of_cons. intros [->|H]; eauto.
Qed.

(** The two equations of the leftmost, non-overlapping substitution. *)
Lemma re_sub_go_inside o c s :
  re_sub_go o c true s =
  match skip_to c s with Some r => re_sub_go o c false r | None => [] end.
Proof.
  induction s as [|x t IH]; simpl; [done|]. by destruct (x =? c).
Qed.

Lemma re_sub_delim_unfold o c x t :
  re_sub_delim o c (x :: t) =
  match match_delim o c (x :: t) with
  | Some r => re_sub_delim o c r
  | None => x :: re_sub_delim o c t
  end.
Proof.
  unfold re_sub_delim, match_delim. simpl.
  destruct ((x =? o) && opens c t) eqn:E; [|done].
  rewrite re_sub_go_inside. destruct (skip_to c t) eqn:Hs; [done|].
  apply andb_true_iff in E as [_ E]. destruct t as [|y t']; [done|].
  simpl in E, Hs. apply andb_true_iff in E as [Hy E].
  destruct (y =? c); [done|]. rewrite Hs in E.
  apply bool_decide_eq_true_1 in E. by destruct E.
Qed.

Lemma re_sub_settled o c s : settled o c s = true -> re_sub_delim o c s = s.
Proof.
  unfold re_sub_delim. induction s as [|x t IH]; simpl; [done|].
  intros H. apply andb_true_iff in H as [H1 H2].
  apply negb_true_iff in H1. rewrite H1. by rewrite IH.
Qed.

(** A substitution for another pattern opens no match of [o [^c]+ c] at
    a place where there was none. *)
Lemma opens_re_sub_go c o' c' t :
  c <> o' -> opens c t = false -> opens c (re_sub_go o' c' false t) = false.
Proof.
  intros Hne H. destruct t as [|y t']; [done|].
  destruct (N.eqb_spec y c) as [->|Hyc].
  - simpl. apply N.eqb_neq in Hne. rewrite Hne. simpl.
    by rewrite N.eqb_refl.
  - apply opens_notin. intros Hin. apply elem_of_re_sub_go in Hin.
    simpl in H. apply N.eqb_neq in Hyc. rewrite Hyc in H. simpl in H.
    apply bool_decide_eq_false_1 in H.
    apply elem_of_cons in Hin as [->|Hin]; [by rewrite N.eqb_refl in Hyc|].
    apply H. destruct (skip_to c t') eqn:E; [done|].
    by apply skip_to_None in E.
Qed.

Lemma settled_keep o c o' c' x t :
  c <> o' ->
  (x =? o) && opens c t = false ->
  (x =? o) && opens c (re_sub_go o' c' false t) = false.
Proof.
  intros Hne H. apply andb_false_iff in H as [H|H].
  - by rewrite H.
  - rewrite (opens_re_sub_go _ _ _ _ Hne H). apply andb_false_r.
Qed.

Lemma settled_preserved o c o' c' s b :
  c <> o' -> settled o c s = true -> settled o c (re_sub_go o' c' b s) = true.
Proof.
  intros Hne. revert b. induction s as [|x t IH]; intros b H; [done|].
  simpl in H. apply andb_true_iff in H as [H1 H2]. apply negb_true_iff in H1.
  simpl. destruct b.
  - destruct (x =? c'); auto.
  - destruct ((x =? o') && opens c' t); [auto|]. simpl.
    rewrite (settled_keep _ _ _ _ _ _ Hne H1). simpl. auto.
Qed.

Lemma settled_re_sub_go o c s b :
  c <> o -> settled o c (re_sub_go o c b s) = true.
Proof.
  intros Hne. revert b. induction s as [|x t IH]; intros b; [done|].
  simpl. destruct b.
  - destruct (x =? c); auto.
  - destruct ((x =? o) && opens c t) eqn:E; [auto|]. simpl.
    rewrite (settled_keep _ _ _ _ _ _ Hne E). simpl. auto.
Qed.

Lemma re_sub_delim_idempotent o c s :
  c <> o -> re_sub_delim o c (re_sub_delim o c s) = re_sub_delim o c s.
Proof. intros Hne. apply re_sub_settled. by apply settled_re_sub_go. Qed.

End Substitution.

(** C7. Stripping angle-bracket tags and then curly-brace directives is
    idempotent: for every string [s], [clean_line (clean_line s)] is
    [clean_line s]; a cleaned string is left as it is. *)
Theorem clean_line_idempotent (s : str) :
  clean_line (clean_line s) = clean_line s.
Proof.
  unfold clean_line, strip_braces, strip_tags.
  set (a := re_sub_delim 60 62 s).
  assert (Ha : settled 60 62 (re_sub_delim 123 125 a) = true).
  { apply settled_preserved; [done|]. by apply settled_re_sub_go. }
  rewrite (re_sub_settled _ _ _ Ha).
  by apply re_sub_delim_idempotent.
Qed.

(** ** The timestamped rendering *)

Section Rendering.

Implicit Types (lines before more after : list str) (cur raw : str).

(** A time-range line overwrites [current_timestamp]. *)
Lemma parse_loop_time_range raw lines cur cur' :
  time_range_line raw = true ->
  parse_loop (raw :: lines) cur = parse_loop (raw :: lines) cur'.
Proof.
  unfold time_range_line. intros H. apply andb_true_iff in H as [H1 H2].
  apply negb_true_iff in H1. simpl. by rewrite H1, H2.
Qed.

Lemma parse_loop_time_range_last raw cur :
  time_range_line raw = true -> parse_loop [raw] cur = [].
Proof.
  unfold time_range_line. intros H. apply andb_true_iff in H as [H1 H2].
  apply negb_true_iff in H1. simpl. by rewrite H1, H2.
Qed.

(** The lines before a time-range line emit the same whatever follows
    that line. *)
Lemma parse_loop_before before raw lines cur :
  time_range_line raw = true ->
  parse_loop (before ++ raw :: lines) cur =
  parse_loop (before ++ [raw]) cur ++ parse_loop (raw :: lines) [].
Proof.
  intros Hraw. revert cur. induction before as [|a pre IH]; intros cur.
  - change ([] ++ raw :: lines) with (raw :: lines).
    change ([] ++ [raw]) with [raw].
    rewrite (parse_loop_time_range_last _ _ Hraw).
    by apply parse_loop_time_range.
  - change ((a :: pre) ++ raw :: lines) with (a :: (pre ++ raw :: lines)).
    change ((a :: pre) ++ [raw]) with (a :: (pre ++ [raw])).
    cbn [parse_loop].
    destruct (is_header (strip a)); [apply IH|].
    destruct (contains (strip a) arrow).
    + destruct pre as [|b pre'].
      * cbn [app]. destruct (truthy (strip raw) && negb (contains (strip raw) arrow)).
        -- change (raw :: lines) with ([] ++ raw :: lines) at 1.
           change [raw] with ([] ++ [raw]) at 1.
           by rewrite IH.
        -- change (raw :: lines) with ([] ++ raw :: lines) at 1.
           change [raw] with ([] ++ [raw]) at 1.
           by rewrite IH.
      * cbn [app]. change (b :: pre' ++ raw :: lines) with ((b :: pre') ++ raw :: lines).
        change (b :: pre' ++ [raw]) with ((b :: pre') ++ [raw]).
        destruct (truthy (strip b) && negb (contains (strip b) arrow)); by rewrite IH.
    + destruct (truthy (strip a) && truthy cur); by rewrite IH.
Qed.

(** Without a pending timestamp, lines that are not time-range lines
    emit nothing. *)
Lemma parse_loop_skip more after :
  Forall (fun l => contains (strip l) arrow = false) more ->
  parse_loop (more ++ after) [] = parse_loop after [].
Proof.
  induction 1 as [|a more Ha _ IH]; [done|].
  change ((a :: more) ++ after) with (a :: (more ++ after)).
  cbn [parse_loop]. rewrite Ha.
  destruct (is_header (strip a)); [done|].
  by rewrite andb_false_r.
Qed.


End Rendering.




(** C2 at a failing input: a cue whose only text line is the tag [<c>],
    followed by a second cue.  The first marker is emitted and is followed
    by two empty lines, not by text. *)
Lemma tag_only_cue_leaves_bare_marker :
  parse_vtt_with_timestamps tag_only_cue
  = py "[00:00:01.000 --> 00:00:02.000]" ++ nl ++ nl ++ nl
    ++ py "[00:00:02.000 --> 00:00:03.000]" ++ nl ++ py "Hi".
Proof. vm_compute. reflexivity. Qed.

(** C5, as the code has it: the rendering of the sample cue is the marker
    line and the text line, trimmed, so without a final line feed. *)
Theorem sample_cue_rendering :
  parse_vtt_with_timestamps cue1
  = py "[00:00:01.000 --> 00:00:03.000]" ++ nl ++ py "Hello world".
Proof. vm_compute. reflexivity. Qed.

(** C5, as stated, fails: the rendering of the sample cue is not the
    string that ends with a line feed. *)
Lemma sample_cue_rendering_has_no_final_newline :
  parse_vtt_with_timestamps cue1
  <> py "[00:00:01.000 --> 00:00:03.000]" ++ nl ++ py "Hello world" ++ nl.
Proof. vm_compute. intros H. discriminate H. Qed.

(** ** Trimming *)

Section Trimming.

Implicit Types (s a b m : str).

Lemma lstrip_blank_app a m : blank a -> lstrip (a ++ m) = lstrip m.
Proof. induction 1 as [|x a Hx _ IH]; [done|]. simpl. by rewrite Hx. Qed.

Lemma lstrip_blank a : blank a -> lstrip a = [].
Proof. intros H. rewrite <- (app_nil_r a). by rewrite lstrip_blank_app. Qed.

Lemma lstrip_split s : exists a, blank a /\ s = a ++ lstrip s.
Proof.
  induction s as [|x t (a & Ha & IH)].
  - exists []. split; [constructor | done].
  - simpl. destruct (isspace x) eqn:E.
    + exists (x :: a). split; [by constructor|]. simpl. by rewrite <- IH.
    + exists []. split; [constructor | done].
Qed.

Lemma lstrip_length s : (length (lstrip s) <= length s)%nat.
Proof.
  induction s as [|x t IH]; [done|]. simpl. destruct (isspace x); simpl; lia.
Qed.

Lemma lstrip_fixed_app m b : m <> [] -> lstrip m = m -> lstrip (m ++ b) = m ++ b.
Proof.
  destruct m as [|x t]; [done|]. intros _. simpl.
  destruct (isspace x); [|done].
  intros H. apply (f_equal length) in H. simpl in H.
  pose proof (lstrip_length t). lia.
Qed.

Lemma elem_of_rev s x : x ∈ rev s <-> x ∈ s.
Proof. rewrite !list_elem_of_In. symmetry. apply in_rev. Qed.

Lemma rev_blank a : blank a -> blank (rev a).
Proof. unfold blank. rewrite !Forall_forall. intros H x Hx. apply H. by apply elem_of_rev. Qed.

(** A string between two blank strings, itself trimmed, is what [strip]
    returns. *)
Lemma strip_unique a m b : blank a -> blank b -> trimmed m -> strip (a ++ m ++ b) = m.
Proof.
  intros Ha Hb [Hm1 Hm2]. unfold strip. rewrite (lstrip_blank_app _ _ Ha).
  destruct m as [|x t].
  - simpl. rewrite (lstrip_blank _ Hb). done.
  - rewrite lstrip_fixed_app by done. unfold rstrip.
    rewrite rev_app_distr, (lstrip_blank_app _ _ (rev_blank _ Hb)), Hm2.
    apply rev_involutive.
Qed.

Lemma lstrip_idempotent s : lstrip (lstrip s) = lstrip s.
Proof.
  induction s as [|x t IH]; [done|]. simpl.
  destruct (isspace x) eqn:E; [done|]. simpl. by rewrite E.
Qed.

(** [strip s] sits in [s] between two blank strings, and is trimmed. *)
Lemma strip_split s :
  exists a b, blank a /\ blank b /\ trimmed (strip s) /\ s = a ++ strip s ++ b.
Proof.
  destruct (lstrip_split s) as (a & Ha & Hs).
  destruct (lstrip_split (rev (lstrip s))) as (b & Hb & Hr).
  exists a, (rev b). split; [done|]. split; [by apply rev_blank|].
  assert (Hl : lstrip s = strip s ++ rev b).
  { unfold strip, rstrip. rewrite <- rev_app_distr, <- Hr. by rewrite rev_involutive. }
  split; [|by rewrite <- Hl].
  split.
  - unfold strip, rstrip in *.
    destruct (rev (lstrip (rev (lstrip s)))) as [|x t] eqn:E; [done|].
    pose proof (lstrip_idempotent s) as Hi. rewrite Hl in Hi. simpl in Hi.
    simpl. destruct (isspace x); [|done].
    exfalso. apply (f_equal length) in Hi. simpl in Hi.
    pose proof (lstrip_length (t ++ rev b)). lia.
  - unfold strip, rstrip. rewrite rev_involutive. apply lstrip_idempotent.
Qed.



End Trimming.

(** ** Joining and splitting *)

Section Joining.

Implicit Types (sep s : str) (l : list str).

Lemma join_cons sep s l : l <> [] -> join sep (s :: l) = s ++ sep ++ join sep l.
Proof. by destruct l. Qed.




End Joining.

(** ** The grouping loop *)

Section Grouping.

Implicit Types (items current : list str) (size : nat).

Lemma group_loop_concat size items current :
  items <> [] -> concat (group_loop size items current) = current ++ items.
Proof.
  revert current. induction items as [|x rest IH]; intros current Hne; [done|].
  cbn [group_loop].
  destruct ((size <=? length (current ++ [x]))%nat || bool_decide (rest = [])) eqn:E.
  - cbn [concat]. destruct rest as [|y rest'].
    + simpl. by rewrite app_nil_r.
    + rewrite IH by done. by rewrite <- app_assoc.
  - apply orb_false_iff in E as [_ E]. apply bool_decide_eq_false_1 in E.
    rewrite IH by done. by rewrite <- app_assoc.
Qed.

Lemma group_loop_nil size items current :
  group_loop size items current = [] -> items = [].
Proof.
  intros E. destruct items as [|x rest]; [done|].
  pose proof (group_loop_concat size (x :: rest) current ltac:(done)) as Hc.
  rewrite E in Hc. by destruct current.
Qed.


Lemma group_loop_sizes size items current :
  (length current < size)%nat ->
  full_but_last size (group_loop size items current).
Proof.
  revert current. induction items as [|x rest IH]; intros current Hlt; [done|].
  cbn [group_loop].
  assert (Hlen : length (current ++ [x]) = S (length current)).
  { rewrite length_app. simpl. lia. }
  destruct (Nat.leb_spec size (length (current ++ [x]))) as [Hge|Hlt'].
  - cbn [orb]. destruct rest as [|y rest'].
    + simpl. lia.
    + assert (H0 : (length (@nil str) < size)%nat) by (simpl; lia).
      specialize (IH [] H0). cbn [full_but_last].
      destruct (group_loop size (y :: rest') []) as [|g gs] eqn:E.
      * by apply group_loop_nil in E.
      * split; [lia | exact IH].
  - cbn [orb]. destruct (bool_decide (rest = [])) eqn:E.
    + apply bool_decide_eq_true_1 in E. subst rest. simpl. lia.
    + apply IH. lia.
Qed.

Lemma group_loop_length size items current :
  (length current < size)%nat -> items <> [] ->
  length (group_loop size items current)
  = ((length current + length items + (size - 1)) / size)%nat.
Proof.
  revert current. induction items as [|x rest IH]; intros current Hlt Hne; [done|].
  cbn [group_loop].
  assert (Hlen : length (current ++ [x]) = S (length current)).
  { rewrite length_app. simpl. lia. }
  assert (Hsize : (size <> 0)%nat) by lia.
  destruct (Nat.leb_spec size (length (current ++ [x]))) as [Hge|Hlt'].
  - cbn [orb length]. destruct rest as [|y rest'].
    + simpl.
      replace (length current + 1 + (size - 1))%nat with (length current + 1 * size)%nat by lia.
      rewrite Nat.div_add by done. rewrite Nat.div_small by lia. done.
    + rewrite IH by (simpl; lia || done).
      replace (length current + S (length (y :: rest')) + (size - 1))%nat
        with (0 + length (y :: rest') + (size - 1) + 1 * size)%nat by (simpl in *; lia).
      rewrite Nat.div_add by done. simpl. lia.
  - cbn [orb]. destruct (bool_decide (rest = [])) eqn:E.
    + apply bool_decide_eq_true_1 in E. subst rest. simpl.
      replace (length current + 1 + (size - 1))%nat with (length current + 1 * size)%nat by lia.
      rewrite Nat.div_add by done. rewrite Nat.div_small by lia. done.
    + apply bool_decide_eq_false_1 in E. rewrite IH by (done || lia).
      f_equal. simpl. lia.
Qed.

(** The loop cuts its items into groups of [size]. *)
Lemma group_loop_grouped size items :
  (0 < size)%nat -> grouped size items (group_loop size items []).
Proof.
  intros Hs. split; [|split].
  - destruct items as [|x rest]; [done|]. by apply group_loop_concat.
  - by apply group_loop_sizes.
  - destruct items as [|x rest].
    + simpl. symmetry. apply Nat.div_small. lia.
    + by rewrite group_loop_length.
Qed.

End Grouping.

(** ** Blank-line separators *)

Section Separators.

Implicit Types (s a m b p r : str).









Lemma lstrip_head x t : lstrip (x :: t) = x :: t -> isspace x = false.
Proof.
  simpl. destruct (isspace x); [|done]. intros H.
  apply (f_equal length) in H. simpl in H.
  pose proof (lstrip_length t). lia.
Qed.



End Separators.

(** ** Lines without line feeds *)

Section NoLineFeed.






End NoLineFeed.

(** ** The paragraph formatter *)

Lemma join_joined_by (sep : str) (items : list str) :
  joined_by sep items (join sep items).
Proof.
  induction items as [|x rest IH]; [constructor|].
  destruct rest as [|y rest']; [constructor|].
  rewrite join_cons by done. by constructor.
Qed.

Lemma joined_groups (sep : str) (groups : list (list str)) :
  Forall2 (joined_by sep) groups (join sep <$> groups).
Proof.
  induction groups as [|g rest IH]; constructor; [apply join_joined_by | done].
Qed.

(** C3. On markup with segments [segments], not empty, whose sentence
    tokenization returns [sentences], the formatter compares the number of
    sentences with [max(5, len(segments) // 10)]: above it, [sentences] are
    cut into consecutive groups of exactly 5 (the last one possibly
    shorter); otherwise [segments] are cut into consecutive groups of
    exactly 8 (the last one possibly shorter, so the ceiling of
    [len(segments) / 8] groups).  Every group makes one paragraph, its
    items with a single space between neighbours; the paragraphs make the
    text, with a blank line (two line feeds) between neighbours; and the
    function returns that text trimmed. *)
Theorem paragraphs_are_fixed_size_groups
    (sent_tokenize : str -> outcome (list str))
    (vtt_content : str) (segments sentences : list str) :
  text_segments (splitlines (strip vtt_content)) = segments ->
  segments <> [] ->
  sent_tokenize (join (py " ") segments) = Returns sentences ->
  exists (groups : list (list str)) (paragraphs : list str) (text : str),
    (if (Nat.max 5 (length segments / 10) <? length sentences)%nat
     then grouped 5 sentences groups
     else grouped 8 segments groups)
    /\ Forall2 (joined_by [32]) groups paragraphs
    /\ joined_by [10; 10] paragraphs text
    /\ format_transcript_into_paragraphs sent_tokenize vtt_content 5 8
       = strip text.
Proof.
  intros Hseg Hne Htok. unfold format_transcript_into_paragraphs.
  rewrite Hseg. destruct segments as [|s0 rest]; [done|].
  rewrite Htok. unfold MIN_SENTENCE_THRESHOLD, paragraphs_of.
  destruct (Nat.max 5 (length (s0 :: rest) / 10) <? length sentences)%nat.
  - exists (group_loop 5 sentences []), (join (py " ") <$> group_loop 5 sentences []),
      (join (nl ++ nl) (join (py " ") <$> group_loop 5 sentences [])).
    split; [apply group_loop_grouped; lia|].
    split; [apply (joined_groups (py " "))|].
    split; [apply (join_joined_by (nl ++ nl)) | done].
  - exists (group_loop 8 (s0 :: rest) []),
      (join (py " ") <$> group_loop 8 (s0 :: rest) []),
      (join (nl ++ nl) (join (py " ") <$> group_loop 8 (s0 :: rest) [])).
    split; [apply group_loop_grouped; lia|].
    split; [apply (joined_groups (py " "))|].
    split; [apply (join_joined_by (nl ++ nl)) | done].
Qed.

(** C8. Markup from which no segment is extracted, the empty markup among
    them, makes the formatter return the message "Could not extract text
    content for formatting." as its value, whatever the tokenizer would do
    (it is not called). *)
Theorem nothing_extracted_message
    (sent_tokenize : str -> outcome (list str))
    (vtt_content : str) (sentences_per_paragraph lines_per_fallback_paragraph : nat) :
  text_segments (splitlines (strip vtt_content)) = [] ->
  format_transcript_into_paragraphs sent_tokenize vtt_content
    sentences_per_paragraph lines_per_fallback_paragraph
  = py "Could not extract text content for formatting.".
Proof.
  intros H. unfold format_transcript_into_paragraphs. by rewrite H.
Qed.

(** Nine segments in fallback mode (a full group of eight and a group of
    one), and six sentences in sentence mode (a full group of five and a
    group of one), with the strings returned. *)
Lemma paragraphs_are_fixed_size_groups_witness :
  (exists (groups : list (list str)) (paragraphs : list str) (text : str),
     (if (Nat.max 5 (length (splitlines nine_lines) / 10)
          <? length [join (py " ") (splitlines nine_lines)])%nat
      then grouped 5 [join (py " ") (splitlines nine_lines)] groups
      else grouped 8 (splitlines nine_lines) groups)
     /\ Forall2 (joined_by [32]) groups paragraphs
     /\ joined_by [10; 10] paragraphs text
     /\ format_transcript_into_paragraphs one_sentence nine_lines 5 8 = strip text)
  /\ format_transcript_into_paragraphs one_sentence nine_lines 5 8
     = py "a b c d e f g h" ++ nl ++ nl ++ py "i"
  /\ (exists (groups : list (list str)) (paragraphs : list str) (text : str),
        (if (Nat.max 5 (length (splitlines prose_lines) / 10)
             <? length six_sentences)%nat
         then grouped 5 six_sentences groups
         else grouped 8 (splitlines prose_lines) groups)
        /\ Forall2 (joined_by [32]) groups paragraphs
        /\ joined_by [10; 10] paragraphs text
        /\ format_transcript_into_paragraphs prose_tokenize prose_lines 5 8
           = strip text)
  /\ format_transcript_into_paragraphs prose_tokenize prose_lines 5 8
     = py "One. Two. Three. Four. Five." ++ nl ++ nl ++ py "Six.".
Proof.
  split; [|split; [|split]].
  - apply (paragraphs_are_fixed_size_groups one_sentence nine_lines
             (splitlines nine_lines) [join (py " ") (splitlines nine_lines)]).
    + vm_compute. reflexivity.
    + vm_compute. discriminate.
    + reflexivity.
  - vm_compute. reflexivity.
  - apply (paragraphs_are_fixed_size_groups prose_tokenize prose_lines
             (splitlines prose_lines) six_sentences).
    + vm_compute. reflexivity.
    + vm_compute. discriminate.
    + vm_compute. reflexivity.
  - vm_compute. reflexivity.
Defined.

(** The empty markup. *)
Lemma nothing_extracted_message_witness :
  format_transcript_into_paragraphs one_sentence [] 5 8
  = py "Could not extract text content for formatting.".
Proof.
  apply (nothing_extracted_message one_sentence [] 5 8).
  vm_compute. reflexivity.
Defined.




(** ** The identifier extractor *)

Section ExtractorRules.

Implicit Types (s p path cur : str).

Lemma startswith_app s p : startswith s p = true -> s = p ++ drop (length p) s.
Proof.
  revert s. induction p as [|a p' IH]; intros s; [done|].
  destruct s as [|b s']; [done|]. simpl.
  intros H. apply andb_true_iff in H as [Hab H].
  apply N.eqb_eq in Hab as ->. f_equal. by apply IH.
Qed.

(** The first piece of a split is what precedes the first separator. *)
Lemma split_go_head cur s :
  head (split_go slash cur s) = Some (rev cur ++ up_to_slash s).
Proof.
  revert cur. induction s as [|x t IH]; intros cur.
  - simpl. by rewrite app_nil_r.
  - simpl. destruct (x =? slash).
    + simpl. by rewrite app_nil_r.
    + rewrite IH. simpl. by rewrite <- app_assoc.
Qed.

Lemma third_piece_embed path :
  startswith path (py "/embed/") = true ->
  third_piece path = Some (segment_following (py "/embed/") path).
Proof.
  intros H. unfold segment_following.
  rewrite (startswith_app _ _ H) at 1.
  generalize (drop (length (py "/embed/")) path). intros rest.
  unfold third_piece, split.
  change (py "/embed/" ++ rest)
    with (47 :: 101 :: 109 :: 98 :: 101 :: 100 :: 47 :: rest).
  change (split_go slash [] (47 :: 101 :: 109 :: 98 :: 101 :: 100 :: 47 :: rest))
    with ([] :: py "embed" :: split_go slash [] rest).
  pose proof (split_go_head [] rest) as Hh.
  destruct (split_go slash [] rest); [done|]. simpl in *. done.
Qed.

Lemma third_piece_v path :
  startswith path (py "/v/") = true ->
  third_piece path = Some (segment_following (py "/v/") path).
Proof.
  intros H. unfold segment_following.
  rewrite (startswith_app _ _ H) at 1.
  generalize (drop (length (py "/v/")) path). intros rest.
  unfold third_piece, split.
  change (py "/v/" ++ rest) with (47 :: 118 :: 47 :: rest).
  change (split_go slash [] (47 :: 118 :: 47 :: rest))
    with ([] :: py "v" :: split_go slash [] rest).
  pose proof (split_go_head [] rest) as Hh.
  destruct (split_go slash [] rest); [done|]. simpl in *. done.
Qed.

Lemma first_v_head (parse_qs : str -> gmap str (list str)) query :
  first_v parse_qs query =
  match parse_qs query !! py "v" with
  | Some values => head values
  | None => None
  end.
Proof. unfold first_v. destruct (parse_qs query !! py "v") as [[|v vs]|]; done. Qed.

(** A path cannot be the watch path and start with one of the prefixes. *)
Lemma watch_not_prefixed path :
  path = py "/watch" ->
  startswith path (py "/embed/") = false /\ startswith path (py "/v/") = false.
Proof. intros ->. split; reflexivity. Qed.

End ExtractorRules.

Lemma host_among_in (hosts : list str) (u : ParseResult) :
  host_among hosts u = hostname_in u hosts.
Proof.
  unfold host_among, hostname_in. destruct (hostname u) as [h|]; [|done].
  induction hosts as [|k rest IH].
  - reflexivity.
  - cbn [existsb]. rewrite IH.
    destruct (decide (k = h)) as [->|Hne].
    + rewrite bool_decide_eq_true_2 by done. symmetry.
      apply bool_decide_eq_true_2. left.
    + rewrite (bool_decide_eq_false_2 (k = h)) by done. cbn [orb].
      apply bool_decide_ext. rewrite elem_of_cons.
      split; [by right | intros [->|H]; done].
Qed.

(** C6, as the code has it.  On every URL string each extractor returns
    what the rules give for the parsed URL with one list of recognized
    hosts for the watch rule and the prefix rules alike: the path without
    its leading ['/'] for the host [youtu.be]; the first value of [v] for
    a recognized host and the path [/watch] (not found without [v]); the
    path segment after [/embed/] or [/v/] for a recognized host and such a
    path; not found in every other case, a URL that does not parse
    included.  The recognized hosts are the main and the mobile domains in
    app.py, the main domains only in script.py. *)
Theorem extract_video_id_follows_rules
    (urlparse : str -> outcome ParseResult)
    (parse_qs : str -> gmap str (list str)) (url : str) :
  extract_video_id urlparse parse_qs url
  = identifier_by_rules (main_hosts ++ mobile_hosts) (main_hosts ++ mobile_hosts)
      parse_qs (urlparse url)
  /\ Script.extract_video_id urlparse parse_qs url
     = identifier_by_rules main_hosts main_hosts parse_qs (urlparse url).
Proof.
  unfold extract_video_id, Script.extract_video_id, identifier_by_rules.
  destruct (urlparse url) as [u|e]; [|done].
  rewrite !host_among_in. unfold main_hosts, mobile_hosts. cbn [app].
  rewrite <- first_v_head. unfold hostname_in.
  destruct (hostname u) as [h|] eqn:Hh.
  2:{ rewrite !bool_decide_eq_false_2 by done. done. }
  destruct (bool_decide (Some h = Some (py "youtu.be"))) eqn:Eshort.
  - apply bool_decide_eq_true_1 in Eshort. injection Eshort as ->.
    split; reflexivity.
  - split.
    + destruct (bool_decide (h ∈ [py "www.youtube.com"; py "youtube.com"; py "m.youtube.com"])).
      * cbn [andb].
        destruct (bool_decide (path u = py "/watch")) eqn:Ew; [done|].
        destruct (startswith (path u) (py "/embed/")) eqn:Ee.
        { cbn [orb]. by apply third_piece_embed. }
        cbn [orb]. destruct (startswith (path u) (py "/v/")) eqn:Ev; [|done].
        by apply third_piece_v.
      * done.
    + destruct (bool_decide (h ∈ [py "www.youtube.com"; py "youtube.com"])).
      * cbn [andb].
        destruct (bool_decide (path u = py "/watch")) eqn:Ew; [done|].
        destruct (startswith (path u) (py "/embed/")) eqn:Ee.
        { by apply third_piece_embed. }
        destruct (startswith (path u) (py "/v/")) eqn:Ev; [|done].
        by apply third_piece_v.
      * done.
Qed.

(** C6, as stated, fails on the mobile host in both files.  The rules of
    the claim have the mobile host for the watch rule only.  On
    [https://m.youtube.com/embed/abc] they find nothing, and app.py
    returns [abc]; on [https://m.youtube.com/watch?v=abc] they give
    [abc], and script.py finds nothing. *)
Lemma mobile_host_departs_from_stated_rules :
  extract_video_id mobile_embed_urlparse v_parse_qs
    (py "https://m.youtube.com/embed/abc") = Some (py "abc")
  /\ identifier_by_rules (main_hosts ++ mobile_hosts) main_hosts v_parse_qs
       (mobile_embed_urlparse (py "https://m.youtube.com/embed/abc")) = None
  /\ Script.extract_video_id mobile_urlparse v_parse_qs
       (py "https://m.youtube.com/watch?v=abc") = None
  /\ identifier_by_rules (main_hosts ++ mobile_hosts) main_hosts v_parse_qs
       (mobile_urlparse (py "https://m.youtube.com/watch?v=abc"))
     = Some (py "abc").
Proof. repeat split; vm_compute; reflexivity. Qed.

(** ** The orchestrator *)

Section OrchestratorProperties.

Variable urlparse : str -> outcome ParseResult.
Variable parse_qs : str -> gmap str (list str).
Variable sent_tokenize : str -> outcome (list str).
Variable lower : str -> str.
Variable extract_info : str -> str -> str -> filesystem -> filesystem * extraction.

Lemma failed_well_shaped msg : truthy msg = true -> well_shaped (failed msg).
Proof. intros H. unfold well_shaped, failed. simpl. rewrite H. by split. Qed.

Lemma process_well_shaped vtt_content : well_shaped (process sent_tokenize vtt_content).
Proof.
  unfold well_shaped, process. cbn [error timestamped paragraph populated].
  destruct (truthy (parse_vtt_with_timestamps vtt_content));
    destruct (truthy (format_transcript_into_paragraphs sent_tokenize vtt_content 5 8));
    simpl; by split.
Qed.

Lemma download_error_message_truthy e language :
  truthy (download_error_message lower e language) = true.
Proof.
  unfold download_error_message.
  repeat match goal with |- context [if ?b then _ else _] => destruct b end;
    reflexivity.
Qed.

Lemma get_transcript_data_well_shaped url language w :
  well_shaped (get_transcript_data urlparse parse_qs sent_tokenize lower
                 extract_info url language w).1.
Proof.
  unfold get_transcript_data.
  destruct (extract_video_id urlparse parse_qs url) as [[|c video_id]|];
    [by split | | by split].
  destruct (extract_info url _ language w) as [w1 [ac subs|e|e]].
  - destruct (locate w1 _) as [[p f]|].
    + cbn [fst]. destruct (read f) as [vtt_content|e].
      * apply process_well_shaped.
      * by apply failed_well_shaped.
    + cbn [fst]. apply failed_well_shaped.
      destruct (negb ac && negb subs); reflexivity.
  - cbn [fst]. apply failed_well_shaped, download_error_message_truthy.
  - cbn [fst]. by apply failed_well_shaped.
Qed.

End OrchestratorProperties.

(** C4, as the code has it.  For every URL and language the result has
    the error or at least one of the two strings populated, and a
    populated error comes with no populated string; and when the subtitle
    file is read and both renderings of it are empty, the error is the
    "empty content" error.  (The timestamped string may be empty with no
    error, the paragraph string then holding the formatter's message.) *)
Theorem result_never_empty_without_error
    (urlparse : str -> outcome ParseResult)
    (parse_qs : str -> gmap str (list str))
    (sent_tokenize : str -> outcome (list str))
    (lower : str -> str)
    (extract_info : str -> str -> str -> filesystem -> filesystem * extraction)
    (url language : str) (w : filesystem) :
  let r := (get_transcript_data urlparse parse_qs sent_tokenize lower
              extract_info url language w).1 in
  (populated (error r) || populated (timestamped r) || populated (paragraph r) = true)
  /\ (populated (error r) = true ->
      populated (timestamped r) = false /\ populated (paragraph r) = false)
  /\ (forall video_id w1 automatic_captions subtitles p f vtt_content,
        extract_video_id urlparse parse_qs url = Some video_id ->
        video_id <> [] ->
        extract_info url (base_filename_of video_id language) language w
        = (w1, Info automatic_captions subtitles) ->
        locate w1 (possible_paths_of (base_filename_of video_id language) language)
        = Some (p, f) ->
        read f = Returns vtt_content ->
        parse_vtt_with_timestamps vtt_content = [] ->
        format_transcript_into_paragraphs sent_tokenize vtt_content 5 8 = [] ->
        error r = Some (py "Error: Parsing subtitle file resulted in empty content.")).
Proof.
  intros r.
  destruct (get_transcript_data_well_shaped urlparse parse_qs sent_tokenize lower
              extract_info url language w) as [H1 H2].
  split; [exact H1|]. split; [exact H2|].
  intros video_id w1 ac subs p f vtt_content Hid Hne Hinfo Hloc Hread Hts Hpg.
  subst r. unfold get_transcript_data. rewrite Hid.
  destruct video_id as [|c video_id]; [done|].
  cbn zeta. rewrite Hinfo, Hloc. cbn [fst].
  rewrite Hread. unfold process. by rewrite Hts, Hpg.
Qed.

(** A run on a subtitle file both renderings of which are empty. *)
Lemma result_never_empty_without_error_witness :
  error (sample_run tags_only_file).1
  = Some (py "Error: Parsing subtitle file resulted in empty content.").
Proof.
  refine (proj2 (proj2 (result_never_empty_without_error sample_urlparse
            sample_parse_qs one_sentence ascii_lower (stages tags_only_file)
            sample_url (py "en") ∅))
          (py "abc") {[ sample_path := tags_only_file ]} true false
          sample_path tags_only_file (py "<c> <c>") _ _ _ _ _ _ _).
  - vm_compute. reflexivity.
  - discriminate.
  - vm_compute. reflexivity.
  - vm_compute. reflexivity.
  - reflexivity.
  - vm_compute. reflexivity.
  - vm_compute. reflexivity.
Defined.

(** C4, as stated, fails: a subtitle file with the header line only gives
    a result with an empty timestamped string, the formatter's message as
    paragraph string, and no error; neither alternative of the claim
    holds. *)
Lemma empty_captions_give_partial_result :
  (sample_run header_only_file).1
  = {| timestamped := Some [];
       paragraph := Some (py "Could not extract text content for formatting.");
       error := None |}
  /\ populated (error (sample_run header_only_file).1) = false
  /\ populated (timestamped (sample_run header_only_file).1)
     && populated (paragraph (sample_run header_only_file).1) = false.
Proof. repeat split; vm_compute; reflexivity. Qed.

(** C9, as the code has it.  When the retrieval returns, the invocation
    leaves the working directory of the retrieval with the located
    subtitle file (the first candidate path that exists) removed, on
    every way out after it (rendering, empty content, a file that cannot
    be read), unless [os.remove] fails on it, which leaves the directory
    as it is; a removed file is no longer there.  When no candidate path
    exists there is nothing to remove. *)
Theorem located_subtitle_file_is_removed
    (urlparse : str -> outcome ParseResult)
    (parse_qs : str -> gmap str (list str))
    (sent_tokenize : str -> outcome (list str))
    (lower : str -> str)
    (extract_info : str -> str -> str -> filesystem -> filesystem * extraction)
    (url language video_id : str) (w w1 : filesystem)
    (automatic_captions subtitles : bool) :
  extract_video_id urlparse parse_qs url = Some video_id ->
  video_id <> [] ->
  extract_info url (base_filename_of video_id language) language w
  = (w1, Info automatic_captions subtitles) ->
  let w' := (get_transcript_data urlparse parse_qs sent_tokenize lower
               extract_info url language w).2 in
  match locate w1 (possible_paths_of (base_filename_of video_id language) language) with
  | Some (p, f) =>
      w' = (if removable f then delete p w1 else w1)
      /\ (removable f = true -> os_path_exists w' p = false)
  | None =>
      w' = w1
      /\ Forall (fun p => os_path_exists w' p = false)
           (possible_paths_of (base_filename_of video_id language) language)
  end.
Proof.
  intros Hid Hne Hinfo w'. subst w'. unfold get_transcript_data. rewrite Hid.
  destruct video_id as [|c video_id]; [done|].
  cbn zeta. rewrite Hinfo.
  destruct (locate w1 _) as [[p f]|] eqn:Hloc.
  - cbn [snd].
    assert (Hp : w1 !! p = Some f /\ truthy p = true).
    { unfold possible_paths_of in Hloc. cbn [locate] in Hloc.
      repeat match type of Hloc with
             | match ?o with Some _ => _ | None => _ end = _ =>
                 let E := fresh "E" in destruct o eqn:E
             end; try done; injection Hloc as <- <-; (split; [done|]).
      - reflexivity.
      - reflexivity. }
    destruct Hp as [Hp Ht]. unfold cleanup, os_path_exists.
    rewrite Ht, Hp. rewrite bool_decide_eq_true_2 by done. cbn [andb].
    split; [done|]. intros Hr. rewrite Hr.
    apply bool_decide_eq_false_2. rewrite lookup_delete_eq. by apply is_Some_None.
  - cbn [snd cleanup]. split; [done|].
    unfold possible_paths_of in *. cbn [locate] in Hloc.
    unfold os_path_exists.
    destruct (w1 !! _) eqn:E1 in Hloc; [done|].
    destruct (w1 !! _) eqn:E2 in Hloc; [done|].
    repeat constructor; apply bool_decide_eq_false_2.
    + rewrite E1. by apply is_Some_None.
    + rewrite E2. by apply is_Some_None.
Qed.

(** A run that stages one removable file under the first candidate name. *)
Lemma located_subtitle_file_is_removed_witness :
  (sample_run tags_only_file).2
  = delete sample_path {[ sample_path := tags_only_file ]}
  /\ os_path_exists (sample_run tags_only_file).2 sample_path = false.
Proof.
  pose proof (located_subtitle_file_is_removed sample_urlparse sample_parse_qs
                one_sentence ascii_lower (stages tags_only_file)
                sample_url (py "en") (py "abc")
                ∅ {[ sample_path := tags_only_file ]} true false) as H.
  assert (Hid : extract_video_id sample_urlparse sample_parse_qs sample_url
                = Some (py "abc")) by (vm_compute; reflexivity).
  assert (Hne : py "abc" <> []) by discriminate.
  assert (Hinfo : stages tags_only_file sample_url
                    (base_filename_of (py "abc") (py "en")) (py "en") ∅
                  = ({[ sample_path := tags_only_file ]}, Info true false))
    by (vm_compute; reflexivity).
  specialize (H Hid Hne Hinfo).
  assert (Hloc : locate {[ sample_path := tags_only_file ]}
                   (possible_paths_of (base_filename_of (py "abc") (py "en")) (py "en"))
                 = Some (sample_path, tags_only_file))
    by (vm_compute; reflexivity).
  cbv zeta in H. rewrite Hloc in H. destruct H as [H1 H2].
  split; [exact H1 | exact (H2 eq_refl)].
Defined.

(** C9, as stated, fails: when [os.remove] raises [OSError] on the staged
    file, the invocation returns its result without an error and the file
    is still there. *)
Lemma undeletable_subtitle_file_remains :
  error (sample_run locked_file).1 = None
  /\ os_path_exists (sample_run locked_file).2 sample_path = true.
Proof. split; vm_compute; reflexivity. Qed.

Lemma staged_file_survives_download_error :
  let run := get_transcript_data sample_urlparse sample_parse_qs one_sentence
               ascii_lower (stages_then_fails tags_only_file)
               sample_url (py "en") ∅ in
  error run.1 = Some (py "Error: Video unavailable.")
  /\ os_path_exists run.2 sample_path = true.
Proof. split; vm_compute; reflexivity. Qed.

(** * Further properties of the code *)

(** ** More on the substitutions *)

Section Clean.

Implicit Types (o c : N) (s a m b : str).








End Clean.

(** ** More on the timestamped rendering *)

Section RenderingShape.

Lemma strip_nil : strip [] = [].
Proof. reflexivity. Qed.




End RenderingShape.

(** X1. Markup none of whose lines holds the arrow renders to the empty
    string: text outside a cue is dropped. *)
Theorem no_time_range_renders_empty (vtt_content : str) :
  Forall (fun l => contains (strip l) arrow = false)
    (splitlines (strip vtt_content)) ->
  parse_vtt_with_timestamps vtt_content = [].
Proof.
  intros H. unfold parse_vtt_with_timestamps.
  rewrite <- (app_nil_r (splitlines (strip vtt_content))).
  by rewrite (parse_loop_skip _ [] H).
Qed.

Lemma no_time_range_renders_empty_witness :
  parse_vtt_with_timestamps (py "WEBVTT" ++ nl ++ nl ++ py "Hello" ++ nl ++ py "world") = [].
Proof.
  apply no_time_range_renders_empty. vm_compute. repeat constructor.
Defined.

(** A time-range line at the end emits nothing and leaves what the lines
    before it emit as it is without that line. *)
Lemma parse_loop_time_range_at_end (before : list str) (stamp cur : str) :
  time_range_line stamp = true ->
  parse_loop (before ++ [stamp]) cur = parse_loop before cur.
Proof.
  intros Hs. revert cur. induction before as [|a pre IH]; intros cur.
  - by apply parse_loop_time_range_last.
  - change ((a :: pre) ++ [stamp]) with (a :: (pre ++ [stamp])).
    cbn [parse_loop].
    destruct (is_header (strip a)); [apply IH|].
    destruct (contains (strip a) arrow).
    + destruct pre as [|b pre'].
      * cbn [app]. unfold time_range_line in Hs.
        apply andb_true_iff in Hs as [_ Hs]. rewrite Hs, andb_false_r.
        change [stamp] with ([] ++ [stamp]). by rewrite IH.
      * cbn [app]. change (b :: pre' ++ [stamp]) with ((b :: pre') ++ [stamp]).
        destruct (truthy (strip b) && negb (contains (strip b) arrow));
          by rewrite IH.
    + destruct (truthy (strip a) && truthy cur); by rewrite IH.
Qed.

(** X2. A time-range line that is the last line, or is followed by a blank
    line or by another time-range line, emits nothing, no marker either:
    the rendering is what the lines before it emit on their own, followed
    by what the lines after it emit on their own. *)
Theorem settings_only_cue_emits_nothing
    (vtt_content : str) (before : list str) (stamp : str) (after : list str) :
  splitlines (strip vtt_content) = before ++ stamp :: after ->
  time_range_line stamp = true ->
  match after with
  | [] => True
  | nxt :: _ => truthy (strip nxt) = false \/ contains (strip nxt) arrow = true
  end ->
  parse_vtt_with_timestamps vtt_content
  = strip (join nl (parse_loop before [] ++ parse_loop after [])).
Proof.
  intros Hlines Hs Hnext. unfold parse_vtt_with_timestamps.
  rewrite Hlines, (parse_loop_before _ _ _ _ Hs).
  rewrite (parse_loop_time_range_at_end _ _ _ Hs). do 3 f_equal.
  unfold time_range_line in Hs. apply andb_true_iff in Hs as [Hs1 Hs2].
  apply negb_true_iff in Hs1. cbn [parse_loop]. rewrite Hs1, Hs2.
  destruct after as [|nxt rest]; [done|].
  destruct Hnext as [Hn|Hn]; rewrite Hn; [done|]. by rewrite andb_false_r.
Qed.

(** A cue with text, a time-range line followed by another time-range
    line, and a cue with text: the rendering has the first and the last
    cue only. *)
Lemma settings_only_cue_emits_nothing_witness :
  parse_vtt_with_timestamps settings_only_markup
  = strip (join nl (parse_loop [py "00:00:00.000 --> 00:00:01.000"; py "Hello"; []] []
                    ++ parse_loop [py "00:00:02.000 --> 00:00:03.000"; py "Hi"] []))
  /\ parse_vtt_with_timestamps settings_only_markup
     = py "[00:00:00.000 --> 00:00:01.000]" ++ nl ++ py "Hello" ++ nl ++ nl
       ++ py "[00:00:02.000 --> 00:00:03.000]" ++ nl ++ py "Hi".
Proof.
  split; [|vm_compute; reflexivity].
  apply (settings_only_cue_emits_nothing settings_only_markup
           [py "00:00:00.000 --> 00:00:01.000"; py "Hello"; []]
           (py "00:00:01.000 --> 00:00:02.000")
           [py "00:00:02.000 --> 00:00:03.000"; py "Hi"]).
  - vm_compute. reflexivity.
  - vm_compute. reflexivity.
  - right. vm_compute. reflexivity.
Defined.



(** ** More on the paragraph formatter *)

Section Segments.

Implicit Types (lines : list str) (s seg sep : str).

Lemma strip_trimmed s : trimmed (strip s).
Proof. by destruct (strip_split s) as (a & b & _ & _ & Ht & _). Qed.

Lemma strip_nil_blank s : strip s = [] -> blank s.
Proof.
  destruct (strip_split s) as (a & b & Ha & Hb & _ & Hs). intros E.
  rewrite E in Hs. rewrite Hs. by apply Forall_app.
Qed.

Lemma text_segments_Forall (P : str -> Prop) lines :
  (forall raw, raw ∈ lines -> P (strip (clean_line (strip raw)))) ->
  Forall P (text_segments lines).
Proof.
  induction lines as [|raw rest IH]; intros H; [constructor|].
  assert (Hrest : Forall P (text_segments rest)).
  { apply IH. intros r Hr. apply H. by right. }
  cbn [text_segments].
  destruct (is_header (strip raw) || contains (strip raw) arrow
            || negb (truthy (strip raw))); [done|].
  destruct (truthy (clean_line (strip raw))
            && negb (is_label (clean_line (strip raw)))); [|done].
  constructor; [|done]. apply H. left.
Qed.

Lemma text_segments_trimmed lines : Forall trimmed (text_segments lines).
Proof. apply text_segments_Forall. intros raw _. apply strip_trimmed. Qed.

Lemma text_segments_app lines1 lines2 :
  text_segments (lines1 ++ lines2) = text_segments lines1 ++ text_segments lines2.
Proof.
  induction lines1 as [|raw rest IH]; [done|].
  change ((raw :: rest) ++ lines2) with (raw :: (rest ++ lines2)).
  cbn [text_segments]. rewrite IH.
  destruct (is_header (strip raw) || contains (strip raw) arrow
            || negb (truthy (strip raw))); [done|].
  by destruct (truthy (clean_line (strip raw))
               && negb (is_label (clean_line (strip raw)))).
Qed.

Lemma elem_of_join_intro sep (l : list str) s x : s ∈ l -> x ∈ s -> x ∈ join sep l.
Proof.
  intros Hs Hx. induction l as [|y t IH]; [by apply elem_of_nil in Hs|].
  destruct t as [|z t'].
  - apply list_elem_of_singleton in Hs as ->. done.
  - rewrite join_cons by done. rewrite !elem_of_app.
    apply elem_of_cons in Hs as [->|Hs]; [by left|]. right. right. auto.
Qed.

Lemma blank_no_ink s x : blank s -> x ∈ s -> isspace x = true.
Proof. unfold blank. rewrite Forall_forall. auto. Qed.

End Segments.


(** X6. Header lines, time-range lines and blank lines add nothing to the
    segments: taking them out of the lines leaves the segments as they
    are; and the segments of two runs of lines are those of the first run
    followed by those of the second. *)
Theorem skipped_lines_add_no_segment (lines lines' : list str) :
  text_segments (List.filter (fun raw => negb (skipped_line raw)) lines)
  = text_segments lines
  /\ text_segments (lines ++ lines') = text_segments lines ++ text_segments lines'.
Proof.
  split; [|apply text_segments_app].
  induction lines as [|raw rest IH]; [done|].
  cbn [List.filter]. unfold skipped_line at 1.
  destruct (is_header (strip raw) || contains (strip raw) arrow
            || negb (truthy (strip raw))) eqn:E.
  - cbn [negb]. rewrite IH. cbn [text_segments]. by rewrite E.
  - cbn [negb text_segments]. by rewrite E, IH.
Qed.

(** X7. In fallback mode the formatter returns a non-empty string as soon
    as one segment is not empty. *)
Theorem fallback_output_not_empty
    (sent_tokenize : str -> outcome (list str))
    (vtt_content seg : str) (sentences : list str) :
  seg ∈ text_segments (splitlines (strip vtt_content)) ->
  seg <> [] ->
  sent_tokenize (join (py " ") (text_segments (splitlines (strip vtt_content))))
  = Returns sentences ->
  (length sentences
   <= Nat.max 5 (length (text_segments (splitlines (strip vtt_content))) / 10))%nat ->
  format_transcript_into_paragraphs sent_tokenize vtt_content 5 8 <> [].
Proof.
  intros Hin Hne Htok Hle Hout.
  pose proof (text_segments_trimmed (splitlines (strip vtt_content))) as Hall.
  rewrite Forall_forall in Hall. destruct (Hall seg Hin) as [Ht _].
  unfold format_transcript_into_paragraphs in Hout.
  destruct (text_segments (splitlines (strip vtt_content))) as [|s0 rest] eqn:Hsegs;
    [by apply elem_of_nil in Hin|].
  rewrite Htok in Hout. unfold MIN_SENTENCE_THRESHOLD, paragraphs_of in Hout.
  destruct (Nat.ltb_spec (Nat.max 5 (length (s0 :: rest) / 10)) (length sentences));
    [lia|].
  apply strip_nil_blank in Hout.
  destruct seg as [|x t]; [done|].
  pose proof (lstrip_head _ _ Ht) as Hx.
  assert (Hg : exists g, g ∈ group_loop 8 (s0 :: rest) [] /\ (x :: t) ∈ g).
  { pose proof (group_loop_concat 8 (s0 :: rest) [] ltac:(done)) as Hc.
    cbn [app] in Hc. rewrite <- Hc in Hin.
    apply list_elem_of_In, in_concat in Hin as (g & Hg1 & Hg2).
    exists g. split; by apply list_elem_of_In. }
  destruct Hg as (g & Hg1 & Hg2).
  assert (Hx' : x ∈ join (nl ++ nl) (join (py " ") <$> group_loop 8 (s0 :: rest) [])).
  { apply (elem_of_join_intro _ _ (join (py " ") g)).
    - apply list_elem_of_fmap. by exists g.
    - apply (elem_of_join_intro _ _ (x :: t)); [done | left]. }
  rewrite (blank_no_ink _ _ Hout Hx') in Hx. done.
Qed.

Lemma fallback_output_not_empty_witness :
  format_transcript_into_paragraphs one_sentence cue1 5 8 <> [].
Proof.
  apply (fallback_output_not_empty one_sentence cue1 (py "Hello world")
           [py "Hello world"]).
  - vm_compute. left.
  - discriminate.
  - vm_compute. reflexivity.
  - vm_compute. lia.
Defined.



(** ** The word cloud *)

(** X9. The paragraph strings that are messages of the formatter itself
    give no word cloud, and the cloud collaborator is not consulted: the
    message for markup without text segments, and the message for a
    missing tokenizer resource. *)
Theorem no_word_cloud_from_formatter_messages {Cloud : Type}
    (wordcloud_generate : str -> cloud_outcome Cloud)
    (sent_tokenize : str -> outcome (list str)) (vtt_content : str) :
  (text_segments (splitlines (strip vtt_content)) = [] ->
   generate_word_cloud wordcloud_generate
     (format_transcript_into_paragraphs sent_tokenize vtt_content 5 8) = None)
  /\ (forall e,
        text_segments (splitlines (strip vtt_content)) <> [] ->
        sent_tokenize (join (py " ") (text_segments (splitlines (strip vtt_content))))
        = Raises e ->
        contains e (py "Resource punkt") || contains e (py "punkt_tab") = true ->
        generate_word_cloud wordcloud_generate
          (format_transcript_into_paragraphs sent_tokenize vtt_content 5 8) = None).
Proof.
  split.
  - intros H. unfold format_transcript_into_paragraphs. by rewrite H.
  - intros e Hne Htok He. unfold format_transcript_into_paragraphs.
    destruct (text_segments (splitlines (strip vtt_content))) as [|s0 rest]; [done|].
    by rewrite Htok, He.
Qed.

Lemma no_word_cloud_from_formatter_messages_witness :
  generate_word_cloud (fun text => CloudMade text)
    (format_transcript_into_paragraphs one_sentence [] 5 8) = None.
Proof.
  apply (proj1 (no_word_cloud_from_formatter_messages (fun text => CloudMade text)
                  one_sentence [])).
  vm_compute. reflexivity.
Defined.

(** X10. The message for any other tokenizer failure does not start with
    "Error:": [generate_word_cloud] hands it to the cloud collaborator
    like a transcript. *)
Theorem tokenizer_failure_text_reaches_word_cloud {Cloud : Type}
    (wordcloud_generate : str -> cloud_outcome Cloud)
    (sent_tokenize : str -> outcome (list str)) (vtt_content e : str) :
  text_segments (splitlines (strip vtt_content)) <> [] ->
  sent_tokenize (join (py " ") (text_segments (splitlines (strip vtt_content))))
  = Raises e ->
  contains e (py "Resource punkt") || contains e (py "punkt_tab") = false ->
  format_transcript_into_paragraphs sent_tokenize vtt_content 5 8
  = py "Error during sentence tokenization: " ++ e
  /\ generate_word_cloud wordcloud_generate
       (format_transcript_into_paragraphs sent_tokenize vtt_content 5 8)
     = match wordcloud_generate (py "Error during sentence tokenization: " ++ e) with
       | CloudMade c => Some c
       | _ => None
       end.
Proof.
  intros Hne Htok He.
  assert (Hf : format_transcript_into_paragraphs sent_tokenize vtt_content 5 8
               = py "Error during sentence tokenization: " ++ e).
  { unfold format_transcript_into_paragraphs.
    destruct (text_segments (splitlines (strip vtt_content))) as [|s0 rest]; [done|].
    by rewrite Htok, He. }
  split; [done|]. rewrite Hf. unfold generate_word_cloud.
  change (negb (truthy (py "Error during sentence tokenization: " ++ e))
          || startswith (py "Error during sentence tokenization: " ++ e) (py "Error:")
          || startswith (py "Error during sentence tokenization: " ++ e)
               (py "Could not extract")) with false.
  by destruct (wordcloud_generate _).
Qed.

(** A tokenizer that fails with the message [boom]. *)
Lemma tokenizer_failure_text_reaches_word_cloud_witness :
  format_transcript_into_paragraphs (fun _ => Raises (py "boom")) cue1 5 8
  = py "Error during sentence tokenization: " ++ py "boom"
  /\ generate_word_cloud (fun text => CloudMade text)
       (format_transcript_into_paragraphs (fun _ => Raises (py "boom")) cue1 5 8)
     = match (fun text => CloudMade text)
               (py "Error during sentence tokenization: " ++ py "boom") with
       | CloudMade c => Some c
       | _ => None
       end.
Proof.
  apply (tokenizer_failure_text_reaches_word_cloud (fun text => CloudMade text)
           (fun _ => Raises (py "boom")) cue1 (py "boom")).
  - vm_compute. discriminate.
  - reflexivity.
  - vm_compute. reflexivity.
Defined.

(** ** More on the orchestrator *)

Section OrchestratorFrame.

Variable urlparse : str -> outcome ParseResult.
Variable parse_qs : str -> gmap str (list str).
Variable sent_tokenize : str -> outcome (list str).
Variable lower : str -> str.
Variable extract_info : str -> str -> str -> filesystem -> filesystem * extraction.

Lemma locate_Some (w : filesystem) paths p f :
  locate w paths = Some (p, f) -> p ∈ paths /\ w !! p = Some f.
Proof.
  induction paths as [|q rest IH]; [done|]. cbn [locate].
  destruct (w !! q) eqn:E.
  - intros [= <- <-]. split; [left | done].
  - intros H. destruct (IH H). split; [by right | done].
Qed.

Lemma cleanup_other (w : filesystem) o q :
  (forall p, o = Some p -> p <> q) -> cleanup o w !! q = w !! q.
Proof.
  intros H. unfold cleanup. destruct o as [p|]; [|done].
  destruct (truthy p && os_path_exists w p); [|done].
  destruct (w !! p) as [f|] eqn:E; [|done].
  destruct (removable f); [|done].
  apply lookup_delete_ne. by apply H.
Qed.

Lemma failed_error msg : error (failed msg) = Some msg.
Proof. reflexivity. Qed.

End OrchestratorFrame.

(** X11. A result without an error comes from a subtitle file that was
    located and read: its two strings are the two renderings of the
    content of that file. *)
Theorem result_without_error_renders_the_file
    (urlparse : str -> outcome ParseResult)
    (parse_qs : str -> gmap str (list str))
    (sent_tokenize : str -> outcome (list str))
    (lower : str -> str)
    (extract_info : str -> str -> str -> filesystem -> filesystem * extraction)
    (url language : str) (w : filesystem) :
  let r := (get_transcript_data urlparse parse_qs sent_tokenize lower
              extract_info url language w).1 in
  error r = None ->
  exists video_id w1 automatic_captions subtitles p f vtt_content,
    extract_video_id urlparse parse_qs url = Some video_id
    /\ extract_info url (base_filename_of video_id language) language w
       = (w1, Info automatic_captions subtitles)
    /\ locate w1 (possible_paths_of (base_filename_of video_id language) language)
       = Some (p, f)
    /\ read f = Returns vtt_content
    /\ timestamped r = Some (parse_vtt_with_timestamps vtt_content)
    /\ paragraph r
       = Some (format_transcript_into_paragraphs sent_tokenize vtt_content 5 8).
Proof.
  intros r. subst r. unfold get_transcript_data.
  destruct (extract_video_id urlparse parse_qs url) as [[|c id]|] eqn:Hid;
    [done | | done].
  cbn zeta.
  destruct (extract_info url (base_filename_of (c :: id) language) language w)
    as [w1 [ac subs|e|e]] eqn:Hinfo; [|done..].
  destruct (locate w1 _) as [[p f]|] eqn:Hloc; [|done].
  cbn [fst]. destruct (read f) as [vtt_content|e] eqn:Hread; [|done].
  intros _. by exists (c :: id), w1, ac, subs, p, f, vtt_content.
Qed.

Lemma result_without_error_renders_the_file_witness :
  exists video_id w1 automatic_captions subtitles p f vtt_content,
    extract_video_id sample_urlparse sample_parse_qs sample_url = Some video_id
    /\ stages header_only_file sample_url (base_filename_of video_id (py "en")) (py "en") ∅
       = (w1, Info automatic_captions subtitles)
    /\ locate w1 (possible_paths_of (base_filename_of video_id (py "en")) (py "en"))
       = Some (p, f)
    /\ read f = Returns vtt_content
    /\ timestamped (sample_run header_only_file).1
       = Some (parse_vtt_with_timestamps vtt_content)
    /\ paragraph (sample_run header_only_file).1
       = Some (format_transcript_into_paragraphs one_sentence vtt_content 5 8).
Proof.
  apply (result_without_error_renders_the_file sample_urlparse sample_parse_qs
           one_sentence ascii_lower (stages header_only_file) sample_url (py "en") ∅).
  vm_compute. reflexivity.
Defined.

Lemma candidate_paths_differ (base_filename language : str) :
  base_filename ++ py "." ++ language ++ py ".vtt" <> base_filename ++ py ".vtt".
Proof.
  intros H. apply app_inv_head in H. apply (f_equal length) in H.
  rewrite !length_app in H. simpl in H. lia.
Qed.

(** X12. Apart from what the retrieval does, the orchestrator changes the
    working directory at the located path only, the first of the two
    candidate paths that exists: every other path is as the retrieval
    left it, and so is the second candidate when the first exists. *)
Theorem orchestrator_touches_candidate_paths_only
    (urlparse : str -> outcome ParseResult)
    (parse_qs : str -> gmap str (list str))
    (sent_tokenize : str -> outcome (list str))
    (lower : str -> str)
    (extract_info : str -> str -> str -> filesystem -> filesystem * extraction)
    (url language video_id : str) (w : filesystem) :
  extract_video_id urlparse parse_qs url = Some video_id ->
  video_id <> [] ->
  let base_filename := base_filename_of video_id language in
  let w1 := (extract_info url base_filename language w).1 in
  let w' := (get_transcript_data urlparse parse_qs sent_tokenize lower
               extract_info url language w).2 in
  (forall q, w' !! q <> w1 !! q ->
     exists f, locate w1 (possible_paths_of base_filename language) = Some (q, f))
  /\ (is_Some (w1 !! (base_filename ++ py "." ++ language ++ py ".vtt")) ->
      w' !! (base_filename ++ py ".vtt") = w1 !! (base_filename ++ py ".vtt")).
Proof.
  intros Hid Hne base_filename w1 w'. subst base_filename w1 w'.
  unfold get_transcript_data. rewrite Hid.
  destruct video_id as [|c id]; [done|]. cbn zeta.
  destruct (extract_info url (base_filename_of (c :: id) language) language w)
    as [w1 [ac subs|e|e]]; cbn [fst snd]; [|by split..].
  destruct (locate w1 _) as [[p f]|] eqn:Hloc; cbn [snd].
  - split.
    + intros q Hq. destruct (decide (q = p)) as [->|Hqp]; [by exists f|].
      exfalso. apply Hq. apply cleanup_other. by intros p' [= <-].
    + intros [f1 Hf1].
      assert (Hp : p = base_filename_of (c :: id) language ++ py "." ++ language
                       ++ py ".vtt").
      { unfold possible_paths_of in Hloc. cbn [locate] in Hloc.
        rewrite Hf1 in Hloc. by injection Hloc. }
      apply cleanup_other. intros p' [= <-]. rewrite Hp.
      apply candidate_paths_differ.
  - split; [by intros q Hq | done].
Qed.

(** A run whose retrieval stages a file under each candidate path: the
    first is removed, the second stays. *)
Lemma orchestrator_touches_candidate_paths_only_witness :
  let run := get_transcript_data sample_urlparse sample_parse_qs one_sentence
               ascii_lower (stages_both tags_only_file header_only_file)
               sample_url (py "en") ∅ in
  ((forall q,
      run.2 !! q
      <> (stages_both tags_only_file header_only_file sample_url
            (base_filename_of (py "abc") (py "en")) (py "en") ∅).1 !! q ->
      exists f,
        locate (stages_both tags_only_file header_only_file sample_url
                  (base_filename_of (py "abc") (py "en")) (py "en") ∅).1
          (possible_paths_of (base_filename_of (py "abc") (py "en")) (py "en"))
        = Some (q, f))
   /\ (is_Some ((stages_both tags_only_file header_only_file sample_url
                   (base_filename_of (py "abc") (py "en")) (py "en") ∅).1
                !! (base_filename_of (py "abc") (py "en") ++ py "." ++ py "en"
                    ++ py ".vtt")) ->
       run.2 !! (base_filename_of (py "abc") (py "en") ++ py ".vtt")
       = (stages_both tags_only_file header_only_file sample_url
            (base_filename_of (py "abc") (py "en")) (py "en") ∅).1
         !! (base_filename_of (py "abc") (py "en") ++ py ".vtt")))
  /\ run.2 !! py "abc_transcript_en.en.vtt" = None
  /\ run.2 !! py "abc_transcript_en.vtt" = Some header_only_file.
Proof.
  intros run. subst run. split; [|split; vm_compute; reflexivity].
  apply (orchestrator_touches_candidate_paths_only sample_urlparse sample_parse_qs
           one_sentence ascii_lower (stages_both tags_only_file header_only_file)
           sample_url (py "en") (py "abc") ∅).
  - vm_compute. reflexivity.
  - discriminate.
Defined.

(** X13. Without an identifier, or with the empty identifier, the
    orchestrator returns the "could not extract" error at once: the
    retrieval is not called and the working directory is as it was. *)
Theorem no_identifier_fails_fast
    (urlparse : str -> outcome ParseResult)
    (parse_qs : str -> gmap str (list str))
    (sent_tokenize : str -> outcome (list str))
    (lower : str -> str)
    (extract_info extract_info' :
       str -> str -> str -> filesystem -> filesystem * extraction)
    (url language : str) (w : filesystem) :
  extract_video_id urlparse parse_qs url = None
  \/ extract_video_id urlparse parse_qs url = Some [] ->
  get_transcript_data urlparse parse_qs sent_tokenize lower extract_info url language w
  = ({| timestamped := None; paragraph := None;
        error := Some (py "Error: Could not extract a valid YouTube video ID from the URL.") |},
     w)
  /\ get_transcript_data urlparse parse_qs sent_tokenize lower extract_info url language w
     = get_transcript_data urlparse parse_qs sent_tokenize lower extract_info' url language w.
Proof.
  intros H. unfold get_transcript_data. by destruct H as [-> | ->].
Qed.

Lemma no_identifier_fails_fast_witness :
  get_transcript_data sample_urlparse sample_parse_qs one_sentence ascii_lower
    (stages tags_only_file) (py "garbage") (py "en") ∅
  = ({| timestamped := None; paragraph := None;
        error := Some (py "Error: Could not extract a valid YouTube video ID from the URL.") |},
     ∅)
  /\ get_transcript_data sample_urlparse sample_parse_qs one_sentence ascii_lower
       (stages tags_only_file) (py "garbage") (py "en") ∅
     = get_transcript_data sample_urlparse sample_parse_qs one_sentence ascii_lower
         (stages locked_file) (py "garbage") (py "en") ∅.
Proof.
  apply (no_identifier_fails_fast sample_urlparse sample_parse_qs one_sentence
           ascii_lower (stages tags_only_file) (stages locked_file)
           (py "garbage") (py "en") ∅).
  left. vm_compute. reflexivity.
Defined.

(** ** More on the identifier extractor *)

Section ExtractorEdges.

Lemma up_to_slash_no_slash (s : str) : slash ∉ up_to_slash s.
Proof.
  induction s as [|x t IH]; [apply not_elem_of_nil|]. simpl.
  destruct (N.eqb_spec x slash) as [->|Hne]; [apply not_elem_of_nil|].
  apply not_elem_of_cons. split; [congruence | done].
Qed.

Lemma main_hosts_without_mobile (h : str) :
  h <> py "m.youtube.com" ->
  bool_decide (h ∈ [py "www.youtube.com"; py "youtube.com"; py "m.youtube.com"])
  = bool_decide (h ∈ [py "www.youtube.com"; py "youtube.com"]).
Proof.
  intros Hm. apply bool_decide_ext. rewrite !elem_of_cons.
  split.
  - intros [H|[H|[H|H]]]; [by left | by right; left | done | by right; right].
  - intros [H|[H|H]]; [by left | by right; left | by do 3 right].
Qed.

Lemma main_host_not_short (h : str) :
  h ∈ [py "www.youtube.com"; py "youtube.com"] -> h <> py "youtu.be".
Proof.
  rewrite !elem_of_cons. intros [->|[->|H]]; [done | done |].
  by apply elem_of_nil in H.
Qed.

End ExtractorEdges.

(** X14. The extractor of app.py and that of script.py return the same
    on every URL whose host is not [m.youtube.com]; on that host the one
    of script.py finds nothing, whatever the path and the query. *)
Theorem extractors_agree_off_mobile_host
    (urlparse : str -> outcome ParseResult)
    (parse_qs : str -> gmap str (list str)) (url : str) :
  ((forall u, urlparse url = Returns u -> hostname u <> Some (py "m.youtube.com")) ->
   extract_video_id urlparse parse_qs url
   = Script.extract_video_id urlparse parse_qs url)
  /\ (forall u, urlparse url = Returns u ->
                hostname u = Some (py "m.youtube.com") ->
                Script.extract_video_id urlparse parse_qs url = None).
Proof.
  split.
  - intros H. unfold extract_video_id, Script.extract_video_id.
    destruct (urlparse url) as [u|e]; [|done]. specialize (H u eq_refl).
    unfold hostname_in. destruct (hostname u) as [h|]; [|done].
    rewrite main_hosts_without_mobile by congruence.
    destruct (bool_decide (h ∈ [py "www.youtube.com"; py "youtube.com"])) eqn:E.
    + apply bool_decide_eq_true_1, main_host_not_short in E.
      rewrite (bool_decide_eq_false_2 (Some h = Some (py "youtu.be")))
        by (intros Heq; apply E; by injection Heq).
      destruct (bool_decide (path u = py "/watch")); [done|].
      destruct (startswith (path u) (py "/embed/")); [done|].
      by destruct (startswith (path u) (py "/v/")).
    + done.
  - intros u Hu Hh. unfold Script.extract_video_id, hostname_in. by rewrite Hu, Hh.
Qed.

(** The sample URL, and a watch URL of the mobile host. *)
Lemma extractors_agree_off_mobile_host_witness :
  extract_video_id sample_urlparse sample_parse_qs sample_url
  = Script.extract_video_id sample_urlparse sample_parse_qs sample_url
  /\ Script.extract_video_id mobile_urlparse sample_parse_qs
       (py "https://m.youtube.com/watch?v=abc") = None.
Proof.
  split.
  - apply (proj1 (extractors_agree_off_mobile_host sample_urlparse sample_parse_qs
                    sample_url)).
    intros u Hu. vm_compute in Hu. injection Hu as <-. discriminate.
  - apply (proj2 (extractors_agree_off_mobile_host mobile_urlparse sample_parse_qs
                    (py "https://m.youtube.com/watch?v=abc"))
             {| hostname := Some (py "m.youtube.com"); path := py "/watch";
                query := py "v=abc" |}); reflexivity.
Defined.

(** X15. For a path that starts with [/embed/] or [/v/] on a recognized
    host the identifier is the text between the prefix and the next ['/']
    (or the end of the path): it holds no ['/'], and it is empty when
    nothing or a ['/'] follows the prefix. *)
Theorem prefixed_identifier_has_no_slash
    (urlparse : str -> outcome ParseResult)
    (parse_qs : str -> gmap str (list str)) (url : str) (u : ParseResult)
    (prefix : str) :
  urlparse url = Returns u ->
  hostname_in u [py "www.youtube.com"; py "youtube.com"; py "m.youtube.com"] = true ->
  prefix = py "/embed/" \/ prefix = py "/v/" ->
  startswith (path u) prefix = true ->
  exists id rest,
    extract_video_id urlparse parse_qs url = Some id
    /\ (slash ∉ id)
    /\ path u = prefix ++ id ++ rest
    /\ match rest with [] => True | x :: _ => x = slash end.
Proof.
  intros Hu Hh Hp Hs.
  assert (Hw : bool_decide (path u = py "/watch") = false).
  { apply bool_decide_eq_false_2. intros E. rewrite E in Hs.
    destruct Hp as [-> | ->]; discriminate Hs. }
  assert (Hid : extract_video_id urlparse parse_qs url
                = Some (segment_following prefix (path u))).
  { unfold extract_video_id. rewrite Hu, Hh, Hw.
    destruct Hp as [-> | ->].
    - rewrite Hs. cbn [orb]. by apply third_piece_embed.
    - rewrite Hs, orb_true_r. by apply third_piece_v. }
  assert (Hsplit : forall s, exists rest,
             s = up_to_slash s ++ rest
             /\ match rest with [] => True | x :: _ => x = slash end).
  { induction s as [|x t (rest & IH1 & IH2)]; [by exists []|]. simpl.
    destruct (N.eqb_spec x slash) as [->|Hne].
    - by exists (slash :: t).
    - exists rest. split; [|done]. simpl. by rewrite <- IH1. }
  destruct (Hsplit (drop (length prefix) (path u))) as (rest & Hr1 & Hr2).
  exists (segment_following prefix (path u)), rest.
  split; [done|]. split; [apply up_to_slash_no_slash|]. split; [|done].
  unfold segment_following. rewrite <- Hr1. by apply startswith_app.
Qed.

Lemma prefixed_identifier_has_no_slash_witness :
  exists id rest,
    extract_video_id embed_urlparse sample_parse_qs
      (py "https://www.youtube.com/embed/abc/x") = Some id
    /\ (slash ∉ id)
    /\ py "/embed/abc/x" = py "/embed/" ++ id ++ rest
    /\ match rest with [] => True | x :: _ => x = slash end.
Proof.
  apply (prefixed_identifier_has_no_slash embed_urlparse sample_parse_qs
           (py "https://www.youtube.com/embed/abc/x")
           {| hostname := Some (py "www.youtube.com"); path := py "/embed/abc/x";
              query := [] |} (py "/embed/")).
  - reflexivity.
  - vm_compute. reflexivity.
  - by left.
  - vm_compute. reflexivity.
Defined.

(** ** The page *)

Section PageProperties.

Variable Cloud : Type.
Variable urlparse : str -> outcome ParseResult.
Variable parse_qs : str -> gmap str (list str).
Variable sent_tokenize : str -> outcome (list str).
Variable lower : str -> str.
Variable extract_info : str -> str -> str -> filesystem -> filesystem * extraction.
Variable wordcloud_generate : str -> cloud_outcome Cloud.

Local Abbreviation click :=
  (Page.on_get_transcript Cloud urlparse parse_qs sent_tokenize lower
     extract_info wordcloud_generate).

Lemma well_shaped_has_anything r : well_shaped r -> Page.has_anything r = true.
Proof.
  intros [H _]. unfold Page.has_anything.
  destruct (populated (error r)), (populated (timestamped r)),
    (populated (paragraph r)); done.
Qed.

(** After a click on a non-empty URL the session holds that URL and a
    result with something in it. *)
Lemma click_holds_url url s w :
  truthy url = true ->
  Page.last_url (click url s w).1 = url
  /\ Page.has_anything (Page.transcript_data (click url s w).1) = true.
Proof.
  intros Hu. unfold click, Page.on_get_transcript. rewrite Hu.
  destruct (negb (bool_decide (url = Page.last_url s))
            || negb (Page.has_anything (Page.transcript_data s))) eqn:E.
  - pose proof (get_transcript_data_well_shaped urlparse parse_qs sent_tokenize
                  lower extract_info url (py "en") w) as Hw.
    destruct (get_transcript_data urlparse parse_qs sent_tokenize lower
                extract_info url (py "en") w) as [r w'].
    cbn [fst Page.last_url Page.transcript_data]. split; [done|].
    by apply well_shaped_has_anything.
  - apply orb_false_iff in E as [E1 E2].
    apply negb_false_iff in E1. apply negb_false_iff in E2.
    apply bool_decide_eq_true_1 in E1. cbn [fst]. by split.
Qed.

Lemma click_twice url s w :
  truthy url = true ->
  click url (click url s w).1 (click url s w).2 = click url s w.
Proof.
  intros Hu. destruct (click_holds_url url s w Hu) as [H1 H2].
  destruct (click url s w) as [s1 w1]. cbn [fst snd] in *.
  unfold click, Page.on_get_transcript. rewrite Hu, H1, H2.
  by rewrite bool_decide_eq_true_2.
Qed.

Lemma view_of_anything td :
  Page.has_anything td = true -> Page.transcript_view td <> Page.ShowNothing.
Proof.
  unfold Page.has_anything, Page.transcript_view.
  destruct (populated (error td)); [done|].
  destruct (populated (timestamped td) || populated (paragraph td)); [done|].
  by rewrite orb_false_r.
Qed.

Lemma click_cloud url s w :
  (Page.word_cloud s <> None ->
   populated (error (Page.transcript_data s)) = false
   /\ populated (paragraph (Page.transcript_data s)) = true) ->
  Page.word_cloud (click url s w).1 <> None ->
  populated (error (Page.transcript_data (click url s w).1)) = false
  /\ populated (paragraph (Page.transcript_data (click url s w).1)) = true.
Proof.
  intros Hs. unfold click, Page.on_get_transcript.
  destruct (truthy url); [|done].
  destruct (negb (bool_decide (url = Page.last_url s))
            || negb (Page.has_anything (Page.transcript_data s))); [|done].
  destruct (get_transcript_data urlparse parse_qs sent_tokenize lower
              extract_info url (py "en") w) as [r w'].
  cbn [fst Page.word_cloud Page.transcript_data].
  destruct (populated (error r)); [done|].
  destruct (populated (paragraph r)); done.
Qed.

End PageProperties.

(** X16. Submitting the same non-empty URL again changes nothing: the
    second click finds the URL and a result in the session, so it runs no
    second retrieval and leaves the session and the working directory as
    the first click left them. *)
Theorem resubmitting_url_fetches_nothing {Cloud : Type}
    (urlparse : str -> outcome ParseResult)
    (parse_qs : str -> gmap str (list str))
    (sent_tokenize : str -> outcome (list str))
    (lower : str -> str)
    (extract_info : str -> str -> str -> filesystem -> filesystem * extraction)
    (wordcloud_generate : str -> cloud_outcome Cloud)
    (url : str) (s : Page.session Cloud) (w : filesystem) :
  url <> [] ->
  let click := Page.on_get_transcript Cloud urlparse parse_qs sent_tokenize
                 lower extract_info wordcloud_generate in
  click url (click url s w).1 (click url s w).2 = click url s w.
Proof.
  intros Hu click. apply click_twice. by destruct url.
Qed.

(** The sample run, from the page. *)
Lemma resubmitting_url_fetches_nothing_witness :
  let click := Page.on_get_transcript str sample_urlparse sample_parse_qs
                 one_sentence ascii_lower (stages tags_only_file)
                 (fun text => CloudMade text) in
  click sample_url (click sample_url Page.initial ∅).1
    (click sample_url Page.initial ∅).2
  = click sample_url Page.initial ∅.
Proof.
  apply (resubmitting_url_fetches_nothing sample_urlparse sample_parse_qs
           one_sentence ascii_lower (stages tags_only_file)
           (fun text => CloudMade text) sample_url Page.initial ∅).
  discriminate.
Defined.

(** X17. After a click on a non-empty URL the transcript section always
    shows something, the error or the two text areas; after a click on
    the empty URL the session is the initial one and nothing is shown. *)
Theorem page_shows_error_or_transcripts {Cloud : Type}
    (urlparse : str -> outcome ParseResult)
    (parse_qs : str -> gmap str (list str))
    (sent_tokenize : str -> outcome (list str))
    (lower : str -> str)
    (extract_info : str -> str -> str -> filesystem -> filesystem * extraction)
    (wordcloud_generate : str -> cloud_outcome Cloud)
    (url : str) (s : Page.session Cloud) (w : filesystem) :
  let s' := (Page.on_get_transcript Cloud urlparse parse_qs sent_tokenize
               lower extract_info wordcloud_generate url s w).1 in
  match url with
  | [] => s' = Page.initial
          /\ Page.transcript_view (Page.transcript_data s') = Page.ShowNothing
  | _ :: _ => Page.transcript_view (Page.transcript_data s') <> Page.ShowNothing
  end.
Proof.
  intros s'. subst s'. destruct url as [|c url']; [by split|].
  apply view_of_anything.
  by apply (click_holds_url Cloud urlparse parse_qs sent_tokenize lower
              extract_info wordcloud_generate (c :: url') s w).
Qed.

(** The sample run, from the page. *)
Lemma page_shows_error_or_transcripts_witness :
  Page.transcript_view (Page.transcript_data
    (Page.on_get_transcript str sample_urlparse sample_parse_qs one_sentence
       ascii_lower (stages sample_cue_file) (fun text => CloudMade text)
       sample_url Page.initial ∅).1) <> Page.ShowNothing.
Proof.
  apply (page_shows_error_or_transcripts sample_urlparse sample_parse_qs
           one_sentence ascii_lower (stages sample_cue_file)
           (fun text => CloudMade text) sample_url Page.initial ∅).
Defined.

(** X18. The session never holds a word cloud beside an error or beside
    an empty paragraph string: this holds at the start and every click
    keeps it. *)
Theorem word_cloud_only_beside_a_paragraph {Cloud : Type}
    (urlparse : str -> outcome ParseResult)
    (parse_qs : str -> gmap str (list str))
    (sent_tokenize : str -> outcome (list str))
    (lower : str -> str)
    (extract_info : str -> str -> str -> filesystem -> filesystem * extraction)
    (wordcloud_generate : str -> cloud_outcome Cloud)
    (url : str) (s : Page.session Cloud) (w : filesystem) :
  let consistent (s : Page.session Cloud) :=
    Page.word_cloud s <> None ->
    populated (error (Page.transcript_data s)) = false
    /\ populated (paragraph (Page.transcript_data s)) = true in
  consistent Page.initial
  /\ (consistent s ->
      consistent (Page.on_get_transcript Cloud urlparse parse_qs sent_tokenize
                    lower extract_info wordcloud_generate url s w).1).
Proof.
  intros consistent. subst consistent. cbv beta. split; [done|].
  intros Hs. by apply click_cloud.
Qed.

(** A run on the sample cue: the cloud is made of its paragraph. *)
Lemma word_cloud_only_beside_a_paragraph_witness :
  populated (error (Page.transcript_data
    (Page.on_get_transcript str sample_urlparse sample_parse_qs one_sentence
       ascii_lower (stages sample_cue_file) (fun text => CloudMade text)
       sample_url Page.initial ∅).1)) = false
  /\ populated (paragraph (Page.transcript_data
    (Page.on_get_transcript str sample_urlparse sample_parse_qs one_sentence
       ascii_lower (stages sample_cue_file) (fun text => CloudMade text)
       sample_url Page.initial ∅).1)) = true.
Proof.
  refine (proj2 (word_cloud_only_beside_a_paragraph sample_urlparse sample_parse_qs
                   one_sentence ascii_lower (stages sample_cue_file)
                   (fun text => CloudMade text) sample_url Page.initial ∅) _ _).
  - intros H. exfalso. by apply H.
  - vm_compute. discriminate.
Defined.

(** ** The standalone script *)

Section ScriptTranscript.

Implicit Types (acc s b : str) (texts : list str).

Lemma append_entries_acc acc texts :
  append_entries acc texts = acc ++ append_entries [] texts.
Proof.
  revert acc. induction texts as [|t rest IH]; intros acc.
  - simpl. by rewrite app_nil_r.
  - cbn [append_entries]. rewrite IH, (IH ([] ++ t ++ py " ")).
    by rewrite <- !app_assoc.
Qed.

Lemma append_entries_join texts :
  texts <> [] -> append_entries [] texts = join (py " ") texts ++ py " ".
Proof.
  induction texts as [|t rest IH]; [done|]. intros _.
  cbn [append_entries]. rewrite append_entries_acc.
  destruct rest as [|t' rest'].
  - simpl. by rewrite app_nil_r.
  - rewrite IH by done. rewrite (join_cons _ t (t' :: rest')) by done.
    change ([] ++ t ++ py " ") with (t ++ py " ").
    by rewrite <- !app_assoc.
Qed.

(** White space after a string does not change what [strip] returns. *)
Lemma strip_app_blank s b : blank b -> strip (s ++ b) = strip s.
Proof.
  intros Hb. destruct (strip_split s) as (a & b0 & Ha & Hb0 & Ht & Hs).
  rewrite Hs at 1. rewrite <- !app_assoc.
  apply strip_unique; [done | by apply Forall_app | done].
Qed.

Lemma transcript_entries_joined (get_transcript : str -> api_outcome)
    (video_id : str) texts :
  video_id <> [] ->
  get_transcript video_id = Entries texts ->
  get_youtube_transcript get_transcript (Some video_id)
  = strip (join (py " ") texts).
Proof.
  intros Hne Hget. unfold get_youtube_transcript.
  destruct video_id as [|c id]; [done|]. rewrite Hget.
  destruct texts as [|t rest]; [done|].
  rewrite append_entries_join by done.
  apply strip_app_blank. by repeat constructor.
Qed.

End ScriptTranscript.

(** X19. For a non-empty identifier whose transcript is fetched, the
    result is the texts of the entries joined with single spaces, in
    their order, and trimmed; without entries it is the empty string. *)
Theorem transcript_is_joined_entries
    (get_transcript : str -> api_outcome) (video_id : str) (texts : list str) :
  video_id <> [] ->
  get_transcript video_id = Entries texts ->
  get_youtube_transcript get_transcript (Some video_id)
  = strip (join (py " ") texts).
Proof.
  intros Hne Hget. by apply transcript_entries_joined.
Qed.

Lemma transcript_is_joined_entries_witness :
  get_youtube_transcript (fun _ => Entries [py "hello "; py " world"]) (Some (py "abc"))
  = strip (join (py " ") [py "hello "; py " world"]).
Proof.
  apply (transcript_is_joined_entries (fun _ => Entries [py "hello "; py " world"])
           (py "abc") [py "hello "; py " world"]).
  - discriminate.
  - reflexivity.
Defined.

(** X20. What the main block prints for an identifier it extracted: the
    messages for disabled or missing transcripts start with "Error:" and
    are printed alone; the message for any other exception does not, and
    is printed between the transcript rules like a transcript. *)
Theorem report_tells_errors_by_prefix
    (urlparse : str -> outcome ParseResult)
    (parse_qs : str -> gmap str (list str))
    (get_transcript : str -> api_outcome) (url video_id : str) :
  Script.extract_video_id urlparse parse_qs url = Some video_id ->
  video_id <> [] ->
  let head_lines :=
    [py "Successfully extracted video ID: " ++ video_id;
     py "Fetching transcript for video ID: " ++ video_id ++ py "..."] in
  match get_transcript video_id with
  | Entries texts =>
      startswith (strip (join (py " ") texts)) (py "Error:") = false ->
      report urlparse parse_qs get_transcript url
      = head_lines ++ [nl ++ py "--- Transcript ---";
                       strip (join (py " ") texts);
                       nl ++ py "--- End of Transcript ---"]
  | TranscriptsDisabled =>
      report urlparse parse_qs get_transcript url
      = head_lines ++ [py "Error: Transcripts are disabled for video ID: " ++ video_id]
  | NoTranscriptFound =>
      report urlparse parse_qs get_transcript url
      = head_lines ++ [py "Error: No transcript found for video ID: " ++ video_id
                       ++ py ". It might be unavailable or still processing."]
  | ApiException e =>
      report urlparse parse_qs get_transcript url
      = head_lines ++ [nl ++ py "--- Transcript ---";
                       py "An unexpected error occurred for video ID "
                       ++ video_id ++ py ": " ++ e;
                       nl ++ py "--- End of Transcript ---"]
  end.
Proof.
  intros Hid Hne head_lines. subst head_lines.
  pose proof (transcript_entries_joined get_transcript video_id) as Hj.
  unfold report. rewrite Hid. destruct video_id as [|c id]; [done|].
  destruct (get_transcript (c :: id)) as [texts| | |e] eqn:Hget.
  - intros Hs. rewrite (Hj texts Hne eq_refl), Hs. done.
  - unfold get_youtube_transcript. by rewrite Hget.
  - unfold get_youtube_transcript. by rewrite Hget.
  - unfold get_youtube_transcript. by rewrite Hget.
Qed.

Lemma report_tells_errors_by_prefix_witness :
  report sample_urlparse sample_parse_qs (fun _ => ApiException (py "timeout"))
    sample_url
  = [py "Successfully extracted video ID: " ++ py "abc";
     py "Fetching transcript for video ID: " ++ py "abc" ++ py "..."]
    ++ [nl ++ py "--- Transcript ---";
        py "An unexpected error occurred for video ID " ++ py "abc" ++ py ": "
        ++ py "timeout";
        nl ++ py "--- End of Transcript ---"].
Proof.
  apply (report_tells_errors_by_prefix sample_urlparse sample_parse_qs
           (fun _ => ApiException (py "timeout")) sample_url (py "abc")).
  - vm_compute. reflexivity.
  - discriminate.
Defined.
